(** * Qiskit Aqua chemistry tutorial: [advanced_howto.ipynb]

    A shallow embedding of the notebook's code cells.  The notebook is glue
    code over the external chemistry library: every call into the library
    (and every [print]) is an event answered by the environment, while the
    notebook's own code (index arithmetic on the orbital lists, the
    electron and spin-orbital counters, the conditionals, the energy
    correction) is ordinary Rocq code between the events.

    Python integers are [Z], Python floats are binary64 [float]s, lists are
    [list]s, the result dictionaries are association lists, and a Python
    exception is a value of [exn] that ends the run. *)

From Stdlib Require Import ZArith List String Bool Lia Floats.
Import ListNotations.

#[local] Set Warnings "-inexact-float".

Local Open Scope string_scope.
Local Open Scope list_scope.
Local Open Scope Z_scope.

(** ** Data of the library's call surface *)

(** The exceptions a run can end with: the three the notebook's own
    expressions can raise ([x % 0], [d[key]], [a[0]]) and whatever the
    library raises. *)
Inductive exn : Type :=
| ZeroDivisionError
| KeyError (key : string)
| IndexError
| LibraryError (msg : string).

(** A reference to an object owned by the library (driver, operator,
    algorithm, optimizer, ...).  The notebook never looks inside. *)
Inductive obj : Type := Obj (id : nat).

(** A numpy array of reals (the integrals), opaque to the notebook. *)
Record ndarray : Type := { shape : list Z; data : list float }.

(** The molecule returned by the driver, with the attributes the notebook
    reads. *)
Record QMolecule : Type := {
  _one_body_integrals : ndarray;
  _two_body_integrals : ndarray;
  _nuclear_repulsion_energy : float;
  _num_alpha : Z;
  _num_beta : Z;
  _num_orbitals : Z;
  _hf_energy : float
}.

(** A numpy scalar: real or complex. *)
Inductive num : Type :=
| Real (x : float)
| Cplx (re im : float).

(** [z.real] *)
Definition real (z : num) : float :=
  match z with
  | Real x => x
  | Cplx re _ => re
  end.

(** [z + x] for a float [x]: the float is promoted to the type of [z]. *)
Definition num_add (z : num) (x : float) : num :=
  match z with
  | Real y => Real (y + x)%float
  | Cplx re im => Cplx (re + x)%float (im + 0)%float
  end.

(** The dictionary an algorithm's [run()] returns: named 1-d arrays. *)
Definition result_dict : Type := list (string * list num).

(** [d[key]] *)
Fixpoint getitem (key : string) (d : result_dict) : exn + list num :=
  match d with
  | [] => inl (KeyError key)
  | (k, v) :: d' => if String.eqb k key then inr v else getitem key d'
  end.

(** [a[0]] *)
Definition first (a : list num) : exn + num :=
  match a with
  | [] => inl IndexError
  | x :: _ => inr x
  end.

(** Values of the driver configuration. *)
Inductive cfgval : Type :=
| CStr (s : string)
| CInt (z : Z).

Definition ordered_dict : Type := list (string * cfgval).
Definition section_dict : Type := list (string * ordered_dict).

(** What a [print(fmt.format(arg))] is given. *)
Inductive pyval : Type :=
| PInt (z : Z)
| PNum (x : num)
| PArr (a : list num).

(** ** The calls the notebook makes

    One constructor per call form of the notebook, indexed by the type of
    what the call returns.  The receiver of a method is its first
    argument.  [init_args] is a method of four different classes with four
    different signatures, so it appears four times. *)
Inductive LibE : Type -> Type :=
| ConfigurationManager : LibE obj
| get_driver_instance (cfg_mgr : obj) (name : string) : LibE obj
| driver_run (driver : obj) (section : section_dict) : LibE QMolecule
| FermionicOperator (h1 h2 : ndarray) : LibE obj
| fermion_mode_freezing (ferOp : obj) (freeze_list : list Z)
    : LibE (obj * float)
| fermion_mode_elimination (ferOp : obj) (remove_list : list Z) : LibE obj
| mapping (ferOp : obj) (map_type : string) (threshold : float) : LibE obj
| two_qubit_reduced_operator (qubitOp : obj) (m : Z) : LibE obj
| chop (qubitOp : obj) (threshold : float) : LibE unit
| num_qubits (qubitOp : obj) : LibE Z
| get_algorithm_instance (name : string) : LibE obj
| get_optimizer_instance (name : string) : LibE obj
| get_variational_form_instance (name : string) : LibE obj
| get_initial_state_instance (name : string) : LibE obj
| ExactEigensolver_init_args (alg qubitOp : obj) (k : Z) : LibE unit
| run (alg : obj) : LibE result_dict
| load_accounts : LibE unit
| set_options (optimizer : obj) (maxiter : Z) : LibE unit
| HartreeFock_init_args (state : obj) (num_qubits num_orbitals : Z)
    (qubit_mapping : string) (two_qubit_reduction : bool)
    (num_particles : Z) : LibE unit
| UCCSD_init_args (var_form : obj)
    (num_qubits depth num_orbitals num_particles : Z)
    (active_occupied active_unoccupied : list Z) (initial_state : obj)
    (qubit_mapping : string) (two_qubit_reduction : bool)
    (num_time_slices : Z) : LibE unit
| setup_quantum_backend (alg : obj) (backend : string) : LibE unit
| VQE_init_args (alg qubitOp : obj) (operator_mode : string)
    (var_form optimizer : obj) : LibE unit
| print (fmt : string) (arg : pyval) : LibE unit.

(** ** Programs over the call surface

    A program is a finite tree: it returns, raises, makes a call and goes
    on with the answer, or runs a body under an exception handler.  The
    last form is what Python's [try]/[except] would be. *)
Inductive prog (A : Type) : Type :=
| Ret (a : A)
| Raise (e : exn)
| Call {X : Type} (c : LibE X) (k : X -> prog A)
| Try {B : Type} (body : prog B) (handler : exn -> prog B) (k : B -> prog A).

Arguments Ret {A} a.
Arguments Raise {A} e.
Arguments Call {A X} c k.
Arguments Try {A B} body handler k.

Fixpoint bind {A B : Type} (p : prog A) (f : A -> prog B) : prog B :=
  match p with
  | Ret a => f a
  | Raise e => Raise e
  | Call c k => Call c (fun x => bind (k x) f)
  | Try body handler k => Try body handler (fun b => bind (k b) f)
  end.

(** A pure, fallible expression as a program. *)
Definition lift {A : Type} (r : exn + A) : prog A :=
  match r with
  | inl e => Raise e
  | inr a => Ret a
  end.

Definition call {X : Type} (c : LibE X) : prog X := Call c Ret.

Declare Scope prog_scope.
Delimit Scope prog_scope with prog.
Notation "x <- p ;; q" := (bind p (fun x => q))
  (at level 61, p at next level, right associativity) : prog_scope.
Notation "' pat <- p ;; q" := (bind p (fun x => match x with pat => q end))
  (at level 61, pat pattern, p at next level, right associativity)
  : prog_scope.
Notation "p ;; q" := (bind p (fun _ => q))
  (at level 61, right associativity) : prog_scope.

(** ** Running a program against a library

    A library is any stateful, possibly failing answer to each call. *)
Definition library (S : Type) : Type :=
  forall X : Type, LibE X -> S -> (exn + X) * S.

(** One line of the log of a run: the call and its outcome. *)
Inductive entry : Type :=
| Entry {X : Type} (c : LibE X) (r : exn + X).

Record outcome (S A : Type) : Type := {
  log : list entry;
  result : exn + A;
  final : S
}.
Arguments log {S A} _.
Arguments result {S A} _.
Arguments final {S A} _.

Fixpoint exec {S A : Type} (lib : library S) (p : prog A) (s : S)
  : outcome S A :=
  match p with
  | Ret a => {| log := []; result := inr a; final := s |}
  | Raise e => {| log := []; result := inl e; final := s |}
  | Call c k =>
      match lib _ c s with
      | (inl e, s') =>
          {| log := [Entry c (inl e)]; result := inl e; final := s' |}
      | (inr x, s') =>
          let o := exec lib (k x) s' in
          {| log := Entry c (inr x) :: log o;
             result := result o; final := final o |}
      end
  | Try body handler k =>
      let o1 := exec lib body s in
      match result o1 with
      | inr b =>
          let o2 := exec lib (k b) (final o1) in
          {| log := log o1 ++ log o2;
             result := result o2; final := final o2 |}
      | inl e =>
          let oh := exec lib (handler e) (final o1) in
          match result oh with
          | inl e' =>
              {| log := log o1 ++ log oh;
                 result := inl e'; final := final oh |}
          | inr b =>
              let o2 := exec lib (k b) (final oh) in
              {| log := log o1 ++ log oh ++ log o2;
                 result := result o2; final := final o2 |}
          end
      end
  end.

(** ** The notebook *)

Local Open Scope prog_scope.

(** [len(l)] *)
Definition len {A : Type} (l : list A) : Z := Z.of_nat (List.length l).

(** [x % n]: Python's remainder has the sign of the divisor, as [Z.modulo]
    has, and raises when the divisor is zero. *)
Definition pymod (x n : Z) : exn + Z :=
  if (n =? 0)%Z then inl ZeroDivisionError else inr (x mod n).

(** [[x % n for x in l]]: elements are taken in order, so an empty list
    raises nothing. *)
Fixpoint mod_all (l : list Z) (n : Z) : exn + list Z :=
  match l with
  | [] => inr []
  | x :: l' =>
      match pymod x n with
      | inl e => inl e
      | inr y =>
          match mod_all l' n with
          | inl e => inl e
          | inr ys => inr (y :: ys)
          end
      end
  end.

(** The five statements under "prepare full idx of freeze_list and
    remove_list", with [n] standing for [molecule._num_orbitals]:
<<
    remove_list = [x % n for x in remove_list]
    freeze_list = [x % n for x in freeze_list]
    remove_list = [x - len(freeze_list) for x in remove_list]
    remove_list += [x + n - len(freeze_list) for x in remove_list]
    freeze_list += [x + n for x in freeze_list]
>>
    The result is the pair (freeze_list, remove_list). *)
Definition index_conversion (n : Z) (freeze_list remove_list : list Z)
  : exn + (list Z * list Z) :=
  match mod_all remove_list n with
  | inl e => inl e
  | inr remove_list =>
      match mod_all freeze_list n with
      | inl e => inl e
      | inr freeze_list =>
          let remove_list :=
            map (fun x => x - len freeze_list) remove_list in
          let remove_list :=
            remove_list
              ++ map (fun x => x + n - len freeze_list) remove_list in
          let freeze_list :=
            freeze_list ++ map (fun x => x + n) freeze_list in
          inr (freeze_list, remove_list)
      end
  end.

(** Step 1: define a molecule. *)
Definition pyscf_cfg : ordered_dict :=
  [("atom", CStr "Li .0 .0 .0; H .0 .0 1.6");
   ("unit", CStr "Angstrom");
   ("charge", CInt 0);
   ("spin", CInt 0);
   ("basis", CStr "sto3g")].

Definition define_molecule : prog QMolecule :=
  cfg_mgr <- call ConfigurationManager ;;
  let section := [("properties", pyscf_cfg)] in
  driver <- call (get_driver_instance cfg_mgr "PYSCF") ;;
  call (driver_run driver section).

(** The variables the notebook holds once the qubit Hamiltonian is
    prepared. *)
Record vars : Type := {
  molecule : QMolecule;
  freeze_list : list Z;
  remove_list : list Z;
  map_type : string;
  nuclear_repulsion_energy : float;
  num_particles : Z;
  num_spin_orbitals : Z;
  energy_shift : float;
  qubit_reduction : bool;
  qubitOp : obj
}.

(** Step 2: prepare the qubit Hamiltonian.  The cell opens by setting
    [freeze_list], [remove_list] and [map_type]; the rest of the cell is
    the function below of those three and of the molecule. *)
Definition prepare_qubit_hamiltonian
    (freeze_list remove_list : list Z) (map_type : string)
    (molecule : QMolecule) : prog vars :=
  let h1 := _one_body_integrals molecule in
  let h2 := _two_body_integrals molecule in
  let nuclear_repulsion_energy := _nuclear_repulsion_energy molecule in
  let num_particles := _num_alpha molecule + _num_beta molecule in
  let num_spin_orbitals := _num_orbitals molecule * 2 in
  call (print "HF energy: {}"
          (PNum (Real (_hf_energy molecule
                       - _nuclear_repulsion_energy molecule)%float))) ;;
  call (print "# of electrons: {}" (PInt num_particles)) ;;
  call (print "# of spin orbitals: {}" (PInt num_spin_orbitals)) ;;
  '(freeze_list, remove_list) <-
    lift (index_conversion (_num_orbitals molecule)
            freeze_list remove_list) ;;
  let energy_shift := 0%float in
  let qubit_reduction := if (map_type =? "parity")%string then true else false in
  ferOp <- call (FermionicOperator h1 h2) ;;
  '(ferOp, energy_shift, num_spin_orbitals, num_particles) <-
    (if len freeze_list >? 0 then
       '(ferOp, energy_shift) <-
         call (fermion_mode_freezing ferOp freeze_list) ;;
       Ret (ferOp, energy_shift,
            num_spin_orbitals - len freeze_list,
            num_particles - len freeze_list)
     else Ret (ferOp, energy_shift, num_spin_orbitals, num_particles)) ;;
  '(ferOp, num_spin_orbitals) <-
    (if len remove_list >? 0 then
       ferOp <- call (fermion_mode_elimination ferOp remove_list) ;;
       Ret (ferOp, num_spin_orbitals - len remove_list)
     else Ret (ferOp, num_spin_orbitals)) ;;
  qubitOp <- call (mapping ferOp map_type 0.00000001%float) ;;
  qubitOp <-
    (if qubit_reduction
     then call (two_qubit_reduced_operator qubitOp num_particles)
     else Ret qubitOp) ;;
  (* 10**-10 is a float in Python *)
  call (chop qubitOp 1e-10%float) ;;
  Ret {| molecule := molecule;
         freeze_list := freeze_list;
         remove_list := remove_list;
         map_type := map_type;
         nuclear_repulsion_energy := nuclear_repulsion_energy;
         num_particles := num_particles;
         num_spin_orbitals := num_spin_orbitals;
         energy_shift := energy_shift;
         qubit_reduction := qubit_reduction;
         qubitOp := qubitOp |}.

(** The two [print]s that report the reference energy from [ret]. *)
Definition report_reference (v : vars) (ret : result_dict) : prog unit :=
  eigvals <- lift (getitem "eigvals" ret) ;;
  e <- lift (first eigvals) ;;
  call (print "The computed energy is: {:.12f}" (PNum (Real (real e)))) ;;
  eigvals <- lift (getitem "eigvals" ret) ;;
  e <- lift (first eigvals) ;;
  call (print "The total ground state energy is: {:.12f}"
          (PNum (Real (real e + energy_shift v
                       + nuclear_repulsion_energy v)%float))).

(** The classical eigen decomposition used as a reference. *)
Definition exact_reference (v : vars) : prog result_dict :=
  exact_eigensolver <- call (get_algorithm_instance "ExactEigensolver") ;;
  call (ExactEigensolver_init_args exact_eigensolver (qubitOp v) 1) ;;
  ret <- call (run exact_eigensolver) ;;
  report_reference v ret ;;
  Ret ret.

(** Step 3: initiate and configure the dynamically loaded instances.
    Returns [vqe_algorithm]. *)
Definition configure_instances (v : vars) : prog obj :=
  call load_accounts ;;
  let max_eval := 200 in
  cobyla <- call (get_optimizer_instance "COBYLA") ;;
  call (set_options cobyla max_eval) ;;
  HF_state <- call (get_initial_state_instance "HartreeFock") ;;
  n <- call (num_qubits (qubitOp v)) ;;
  call (HartreeFock_init_args HF_state n (num_spin_orbitals v)
          (map_type v) (qubit_reduction v) (num_particles v)) ;;
  var_form <- call (get_variational_form_instance "UCCSD") ;;
  n <- call (num_qubits (qubitOp v)) ;;
  call (UCCSD_init_args var_form n 1 (num_spin_orbitals v)
          (num_particles v) [0] [0; 1] HF_state (map_type v)
          (qubit_reduction v) 1) ;;
  vqe_algorithm <- call (get_algorithm_instance "VQE") ;;
  call (setup_quantum_backend vqe_algorithm "statevector_simulator") ;;
  call (VQE_init_args vqe_algorithm (qubitOp v) "matrix" var_form cobyla) ;;
  Ret vqe_algorithm.

(** The three [print]s that report what VQE found from [results]. *)
Definition report_results (v : vars) (results : result_dict) : prog unit :=
  eigvals <- lift (getitem "eigvals" results) ;;
  e <- lift (first eigvals) ;;
  call (print "The computed ground state energy is: {:.12f}" (PNum e)) ;;
  eigvals <- lift (getitem "eigvals" results) ;;
  e <- lift (first eigvals) ;;
  call (print "The total ground state energy is: {:.12f}"
          (PNum (num_add (num_add e (energy_shift v))
                   (nuclear_repulsion_energy v)))) ;;
  opt_params <- lift (getitem "opt_params" results) ;;
  call (print "Parameters: {}" (PArr opt_params)).

(** Step 4: run the algorithm and retrieve the results. *)
Definition run_algorithm (v : vars) (vqe_algorithm : obj)
  : prog result_dict :=
  results <- call (run vqe_algorithm) ;;
  report_results v results ;;
  Ret results.

(** What is left in the notebook's name space at the end. *)
Record final_vars : Type := {
  prepared : vars;
  ret : result_dict;
  results : result_dict
}.

(** All code cells in order, as a function of the three settings that open
    step 2. *)
Definition notebook_with
    (freeze_list remove_list : list Z) (map_type : string)
  : prog final_vars :=
  molecule <- define_molecule ;;
  v <- prepare_qubit_hamiltonian freeze_list remove_list map_type molecule ;;
  ret <- exact_reference v ;;
  vqe_algorithm <- configure_instances v ;;
  results <- run_algorithm v vqe_algorithm ;;
  Ret {| prepared := v; ret := ret; results := results |}.

(** The notebook as written. *)
Definition notebook : prog final_vars :=
  notebook_with [0] [-3; -2] "parity".

(** ** A small library to run the notebook against

    Objects are numbered as they are created; the driver returns LiH in the
    sto3g basis (6 orbitals, 2 + 2 electrons); freezing returns the energy
    shift it is given here; both algorithms return the same dictionary. *)
Definition LiH : QMolecule :=
  {| _one_body_integrals := {| shape := [6; 6]; data := [] |};
     _two_body_integrals := {| shape := [6; 6; 6; 6]; data := [] |};
     _nuclear_repulsion_energy := 0.9922072704%float;
     _num_alpha := 2;
     _num_beta := 2;
     _num_orbitals := 6;
     _hf_energy := (-7.8618647699)%float |}.

Definition demo_results : result_dict :=
  [("eigvals", [Cplx (-1.077059745735)%float 0%float]);
   ("opt_params", [Real 0.03406673%float; Real 0.00540282%float])].

Definition demo_library (shift : float) : library nat :=
  fun X c =>
    match c in LibE X return nat -> (exn + X) * nat with
    | ConfigurationManager => fun s => (inr (Obj s), S s)
    | get_driver_instance _ _ => fun s => (inr (Obj s), S s)
    | driver_run _ _ => fun s => (inr LiH, s)
    | FermionicOperator _ _ => fun s => (inr (Obj s), S s)
    | fermion_mode_freezing _ _ => fun s => (inr (Obj s, shift), S s)
    | fermion_mode_elimination _ _ => fun s => (inr (Obj s), S s)
    | mapping _ _ _ => fun s => (inr (Obj s), S s)
    | two_qubit_reduced_operator _ _ => fun s => (inr (Obj s), S s)
    | chop _ _ => fun s => (inr tt, s)
    | num_qubits _ => fun s => (inr 4, s)
    | get_algorithm_instance _ => fun s => (inr (Obj s), S s)
    | get_optimizer_instance _ => fun s => (inr (Obj s), S s)
    | get_variational_form_instance _ => fun s => (inr (Obj s), S s)
    | get_initial_state_instance _ => fun s => (inr (Obj s), S s)
    | ExactEigensolver_init_args _ _ _ => fun s => (inr tt, s)
    | run _ => fun s => (inr demo_results, s)
    | load_accounts => fun s => (inr tt, s)
    | set_options _ _ => fun s => (inr tt, s)
    | HartreeFock_init_args _ _ _ _ _ _ => fun s => (inr tt, s)
    | UCCSD_init_args _ _ _ _ _ _ _ _ _ _ _ => fun s => (inr tt, s)
    | setup_quantum_backend _ _ => fun s => (inr tt, s)
    | VQE_init_args _ _ _ _ _ => fun s => (inr tt, s)
    | print _ _ => fun s => (inr tt, s)
    end.

(** The same library with a driver that fails. *)
Definition broken_driver_library : library nat :=
  fun X c =>
    match c in LibE X return nat -> (exn + X) * nat with
    | driver_run _ _ => fun s => (inl (LibraryError "PySCF not installed"), s)
    | c' => demo_library 0%float _ c'
    end.

(** ** Reasoning about every run

    [every_run p Q] says that [Q] holds of the log and the result of [p]
    whatever the library answers: it follows the tree of [p] and asks for
    [Q] at every leaf, a failed call being a leaf. *)
Fixpoint every_run {A : Type} (p : prog A)
    (Q : list entry -> exn + A -> Prop) : Prop :=
  match p with
  | Ret a => Q [] (inr a)
  | Raise e => Q [] (inl e)
  | Call c k =>
      (forall e, Q [Entry c (inl e)] (inl e))
      /\ (forall x, every_run (k x) (fun l r => Q (Entry c (inr x) :: l) r))
  | Try body handler k =>
      every_run body (fun l1 r1 =>
        match r1 with
        | inr b => every_run (k b) (fun l2 r2 => Q (l1 ++ l2) r2)
        | inl e =>
            every_run (handler e) (fun lh rh =>
              match rh with
              | inl e' => Q (l1 ++ lh) (inl e')
              | inr b =>
                  every_run (k b) (fun l2 r2 => Q (l1 ++ lh ++ l2) r2)
              end)
        end)
  end.

(** A program with no exception handler anywhere. *)
Inductive handler_free : forall {A : Type}, prog A -> Prop :=
| hf_Ret {A} (a : A) : handler_free (Ret a)
| hf_Raise {A} (e : exn) : handler_free (@Raise A e)
| hf_Call {A X} (c : LibE X) (k : X -> prog A) :
    (forall x, handler_free (k x)) -> handler_free (Call c k).

(** Two programs that make the same calls and go on alike after every
    answer. *)
Inductive same_behaviour : forall {A : Type}, prog A -> prog A -> Prop :=
| sb_Ret {A} (a : A) : same_behaviour (Ret a) (Ret a)
| sb_Raise {A} (e : exn) : same_behaviour (@Raise A e) (Raise e)
| sb_Call {A X} (c : LibE X) (k k' : X -> prog A) :
    (forall x, same_behaviour (k x) (k' x)) ->
    same_behaviour (Call c k) (Call c k')
| sb_Try {A B} (body body' : prog B) (h h' : exn -> prog B)
    (k k' : B -> prog A) :
    same_behaviour body body' ->
    (forall e, same_behaviour (h e) (h' e)) ->
    (forall b, same_behaviour (k b) (k' b)) ->
    same_behaviour (Try body h k) (Try body' h' k').

(** The calls of a log, without their outcomes, by name. *)
Definition call_name {X : Type} (c : LibE X) : string :=
  match c with
  | ConfigurationManager => "ConfigurationManager"
  | get_driver_instance _ _ => "get_driver_instance"
  | driver_run _ _ => "driver.run"
  | FermionicOperator _ _ => "FermionicOperator"
  | fermion_mode_freezing _ _ => "fermion_mode_freezing"
  | fermion_mode_elimination _ _ => "fermion_mode_elimination"
  | mapping _ _ _ => "mapping"
  | two_qubit_reduced_operator _ _ => "two_qubit_reduced_operator"
  | chop _ _ => "chop"
  | num_qubits _ => "num_qubits"
  | get_algorithm_instance _ => "get_algorithm_instance"
  | get_optimizer_instance _ => "get_optimizer_instance"
  | get_variational_form_instance _ => "get_variational_form_instance"
  | get_initial_state_instance _ => "get_initial_state_instance"
  | ExactEigensolver_init_args _ _ _ => "init_args"
  | run _ => "run"
  | load_accounts => "load_accounts"
  | set_options _ _ => "set_options"
  | HartreeFock_init_args _ _ _ _ _ _ => "init_args"
  | UCCSD_init_args _ _ _ _ _ _ _ _ _ _ _ => "init_args"
  | setup_quantum_backend _ _ => "setup_quantum_backend"
  | VQE_init_args _ _ _ _ _ => "init_args"
  | print _ _ => "print"
  end.

Definition entry_name (e : entry) : string :=
  match e with
  | Entry c _ => call_name c
  end.

Definition names (l : list entry) : list string := map entry_name l.

(** Whether a run came to its end. *)
Definition completed {A : Type} (r : exn + A) : Prop :=
  match r with
  | inl _ => False
  | inr _ => True
  end.

(** [l] is an initial part of [l']. *)
Definition initial_part {A : Type} (l l' : list A) : Prop :=
  exists rest, l' = l ++ rest.

(** Every [b] in [l] has an [a] somewhere before it. *)
Definition precedes {A : Type} (a b : A) (l : list A) : Prop :=
  forall l1 l2, l = l1 ++ b :: l2 -> In a l1.

(** The order of the notebook's calls when every cell runs to its end. *)
Definition schedule : list string :=
  [ "ConfigurationManager"; "get_driver_instance"; "driver.run";
    "print"; "print"; "print";
    "FermionicOperator"; "fermion_mode_freezing";
    "fermion_mode_elimination"; "mapping"; "two_qubit_reduced_operator";
    "chop";
    "get_algorithm_instance"; "init_args"; "run"; "print"; "print";
    "load_accounts";
    "get_optimizer_instance"; "set_options";
    "get_initial_state_instance"; "num_qubits"; "init_args";
    "get_variational_form_instance"; "num_qubits"; "init_args";
    "get_algorithm_instance"; "setup_quantum_backend"; "init_args";
    "run"; "print"; "print"; "print" ].


(** ** The notebook without its conditionals

    Step 2 with the bodies of [if len(freeze_list) > 0] and
    [if len(remove_list) > 0] run unconditionally, and [qubit_reduction]
    set to [True]: the straight-line composition of the library calls that
    the notebook is compared with. *)
Definition prepare_qubit_hamiltonian_linear (molecule : QMolecule)
  : prog vars :=
  let freeze_list := [0] in
  let remove_list := [-3; -2] in
  let map_type := "parity" in
  let h1 := _one_body_integrals molecule in
  let h2 := _two_body_integrals molecule in
  let nuclear_repulsion_energy := _nuclear_repulsion_energy molecule in
  let num_particles := _num_alpha molecule + _num_beta molecule in
  let num_spin_orbitals := _num_orbitals molecule * 2 in
  call (print "HF energy: {}"
          (PNum (Real (_hf_energy molecule
                       - _nuclear_repulsion_energy molecule)%float))) ;;
  call (print "# of electrons: {}" (PInt num_particles)) ;;
  call (print "# of spin orbitals: {}" (PInt num_spin_orbitals)) ;;
  '(freeze_list, remove_list) <-
    lift (index_conversion (_num_orbitals molecule)
            freeze_list remove_list) ;;
  ferOp <- call (FermionicOperator h1 h2) ;;
  '(ferOp, energy_shift) <-
    call (fermion_mode_freezing ferOp freeze_list) ;;
  let num_spin_orbitals := num_spin_orbitals - len freeze_list in
  let num_particles := num_particles - len freeze_list in
  ferOp <- call (fermion_mode_elimination ferOp remove_list) ;;
  let num_spin_orbitals := num_spin_orbitals - len remove_list in
  qubitOp <- call (mapping ferOp map_type 0.00000001%float) ;;
  qubitOp <- call (two_qubit_reduced_operator qubitOp num_particles) ;;
  call (chop qubitOp 1e-10%float) ;;
  Ret {| molecule := molecule;
         freeze_list := freeze_list;
         remove_list := remove_list;
         map_type := map_type;
         nuclear_repulsion_energy := nuclear_repulsion_energy;
         num_particles := num_particles;
         num_spin_orbitals := num_spin_orbitals;
         energy_shift := energy_shift;
         qubit_reduction := true;
         qubitOp := qubitOp |}.

Definition notebook_linear : prog final_vars :=
  molecule <- define_molecule ;;
  v <- prepare_qubit_hamiltonian_linear molecule ;;
  ret <- exact_reference v ;;
  vqe_algorithm <- configure_instances v ;;
  results <- run_algorithm v vqe_algorithm ;;
  Ret {| prepared := v; ret := ret; results := results |}.

(** ** Reading a log *)

(** The exception a logged call failed with, if it failed. *)
Definition failure (en : entry) : option exn :=
  match en with
  | Entry _ (inl e) => Some e
  | Entry _ (inr _) => None
  end.

(** A value handed to the library as an argument. *)
Inductive arg : Type :=
| AInt (z : Z)
| AFloat (x : float)
| AStr (s : string)
| ABool (b : bool)
| AInts (l : list Z)
| AArray (a : ndarray)
| AObj (o : obj)
| ASection (d : section_dict).

(** The arguments of a library call; the receiver of a method is not one
    of them, and [print] is not a library call. *)
Definition call_args {X : Type} (c : LibE X) : list arg :=
  match c with
  | ConfigurationManager => []
  | get_driver_instance _ name => [AStr name]
  | driver_run _ section => [ASection section]
  | FermionicOperator h1 h2 => [AArray h1; AArray h2]
  | fermion_mode_freezing _ l => [AInts l]
  | fermion_mode_elimination _ l => [AInts l]
  | mapping _ map_type threshold => [AStr map_type; AFloat threshold]
  | two_qubit_reduced_operator _ m => [AInt m]
  | chop _ threshold => [AFloat threshold]
  | num_qubits _ => []
  | get_algorithm_instance name => [AStr name]
  | get_optimizer_instance name => [AStr name]
  | get_variational_form_instance name => [AStr name]
  | get_initial_state_instance name => [AStr name]
  | ExactEigensolver_init_args _ qubitOp k => [AObj qubitOp; AInt k]
  | run _ => []
  | load_accounts => []
  | set_options _ maxiter => [AInt maxiter]
  | HartreeFock_init_args _ nq no qm red np =>
      [AInt nq; AInt no; AStr qm; ABool red; AInt np]
  | UCCSD_init_args _ nq depth no np occ unocc st qm red slices =>
      [AInt nq; AInt depth; AInt no; AInt np; AInts occ; AInts unocc;
       AObj st; AStr qm; ABool red; AInt slices]
  | setup_quantum_backend _ backend => [AStr backend]
  | VQE_init_args _ qubitOp mode var_form optimizer =>
      [AObj qubitOp; AStr mode; AObj var_form; AObj optimizer]
  | print _ _ => []
  end.

Definition entry_args (en : entry) : list arg :=
  match en with
  | Entry c _ => call_args c
  end.

(** The attributes of the molecule that the notebook reads. *)
Definition attributes (m : QMolecule) : list arg :=
  [AArray (_one_body_integrals m); AArray (_two_body_integrals m);
   AFloat (_nuclear_repulsion_energy m);
   AInt (_num_alpha m); AInt (_num_beta m); AInt (_num_orbitals m);
   AFloat (_hf_energy m)].

(** What the notebook reads as an attribute of a library-owned object in
    one logged call: the molecule's attributes, and [qubitOp.num_qubits]. *)
Definition attributes_read (en : entry) : list arg :=
  match en with
  | Entry c r =>
      match c in LibE X return exn + X -> list arg with
      | driver_run _ _ => fun r =>
          match r with inr m => attributes m | inl _ => [] end
      | num_qubits _ => fun r =>
          match r with inr q => [AInt q] | inl _ => [] end
      | _ => fun _ => []
      end r
  end.

(** The library object a logged call returned, if it returned one. *)
Definition object_returned (en : entry) : list arg :=
  match en with
  | Entry c r =>
      match c in LibE X return exn + X -> list arg with
      | ConfigurationManager
      | get_driver_instance _ _
      | FermionicOperator _ _
      | fermion_mode_elimination _ _
      | mapping _ _ _
      | two_qubit_reduced_operator _ _
      | get_algorithm_instance _
      | get_optimizer_instance _
      | get_variational_form_instance _
      | get_initial_state_instance _ => fun r =>
          match r with inr o => [AObj o] | inl _ => [] end
      | fermion_mode_freezing _ _ => fun r =>
          match r with inr (o, _) => [AObj o] | inl _ => [] end
      | _ => fun _ => []
      end r
  end.

(** The literals written in the notebook's calls. *)
Definition literals : list arg :=
  [AStr "PYSCF"; ASection [("properties", pyscf_cfg)];
   AStr "parity"; AFloat 0.00000001%float; AFloat 1e-10%float;
   AStr "ExactEigensolver"; AInt 1;
   AStr "COBYLA"; AInt 200; AStr "HartreeFock"; AStr "UCCSD";
   AInts [0]; AInts [0; 1];
   AStr "VQE"; AStr "statevector_simulator"; AStr "matrix"].

(** The values the notebook computes itself from the molecule [m]: the
    two converted index lists, the two counters after freezing and
    elimination, and the reduction flag. *)
Definition computed_by_notebook (m : QMolecule) : list arg :=
  match index_conversion (_num_orbitals m) [0] [-3; -2] with
  | inl _ => []
  | inr (freeze_list, remove_list) =>
      [AInts freeze_list; AInts remove_list;
       AInt (_num_alpha m + _num_beta m - len freeze_list);
       AInt (_num_orbitals m * 2 - len freeze_list - len remove_list);
       ABool true]
  end.

Definition computed_in (en : entry) : list arg :=
  match en with
  | Entry c r =>
      match c in LibE X return exn + X -> list arg with
      | driver_run _ _ => fun r =>
          match r with inr m => computed_by_notebook m | inl _ => [] end
      | _ => fun _ => []
      end r
  end.

(** Where an argument of a call can come from, [before] being the log up
    to that call. *)
Definition explained (before : list entry) (a : arg) : Prop :=
  In a literals
  \/ In a (flat_map attributes_read before)
  \/ In a (flat_map object_returned before)
  \/ In a (flat_map computed_in before).

(** Every argument of every call of [l] is explained by what was logged
    before the call. *)
Fixpoint explained_in_order (before l : list entry) : Prop :=
  match l with
  | [] => True
  | en :: l' =>
      Forall (explained before) (entry_args en)
      /\ explained_in_order (before ++ [en]) l'
  end.

Definition arguments_explained {A : Type} (l : list entry) (r : exn + A)
  : Prop :=
  explained_in_order [] l.

(** Nothing of the notebook's own between reading and passing on: every
    argument of every call is an attribute read from a library-owned
    object and passed on as it is, or at most a literal or an object the
    library returned. *)
Definition passes_only_attributes : Prop :=
  forall (S : Type) (lib : library S) (s : S) (en : entry) (a : arg),
    In en (log (exec lib notebook s)) ->
    In a (entry_args en) ->
    In a (flat_map attributes_read (log (exec lib notebook s)))
    \/ In a literals
    \/ In a (flat_map object_returned (log (exec lib notebook s))).

(** ** The order of calls *)

(** What a log must look like to follow the schedule: an initial part of
    it, and all of it when the run came to its end. *)
Definition follows_schedule {A : Type} (l : list entry) (r : exn + A)
  : Prop :=
  initial_part (names l) schedule
  /\ (completed r -> names l = schedule).

(** A checker for [precedes]; [seen] tells whether an [a] has gone by. *)
Fixpoint precedesb (a b : string) (seen : bool) (l : list string) : bool :=
  match l with
  | [] => true
  | x :: l' =>
      (if (x =? b)%string then seen else true)
      && precedesb a b (seen || (x =? a)%string) l'
  end.

(** ** The index conversion as described *)

(** The lists the conversion is said to produce for [n] orbitals, with all
    six indices different from one another. *)
Definition conversion_as_described (n : Z) : Prop :=
  index_conversion n [0] [-3; -2]
  = inr ([0; n], [n - 4; n - 3; 2 * n - 5; 2 * n - 4])
  /\ NoDup ([0; n] ++ [n - 4; n - 3; 2 * n - 5; 2 * n - 4]).

(** ** Bookkeeping of the counters *)

(** The two counters agree with the lists after freezing and
    elimination. *)
Definition bookkeeping (v : vars) : Prop :=
  num_spin_orbitals v
  = 2 * _num_orbitals (molecule v)
    - len (freeze_list v) - len (remove_list v)
  /\ num_particles v
     = _num_alpha (molecule v) + _num_beta (molecule v)
       - len (freeze_list v).

(** [I] holds of the variables whenever the notebook runs to its end. *)
Definition maintains (I : vars -> Prop) : Prop :=
  forall (S : Type) (lib : library S) (s : S) (v : final_vars),
    result (exec lib notebook s) = inr v -> I (prepared v).

Definition keeps_bookkeeping (l : list entry) (r : exn + final_vars)
  : Prop :=
  match r with
  | inl _ => True
  | inr v => bookkeeping (prepared v)
  end.

(** ** Two-qubit reduction *)

Definition reduction_iff_parity (mt : string)
    (l : list entry) (r : exn + final_vars) : Prop :=
  (In "two_qubit_reduced_operator" (names l) -> mt = "parity")
  /\ match r with
     | inl _ => True
     | inr v =>
         (qubit_reduction (prepared v) = true <-> mt = "parity")
         /\ exists ferOp q,
              In (Entry (mapping ferOp mt 0.00000001%float) (inr q)) l
              /\ if qubit_reduction (prepared v)
                 then In (Entry (two_qubit_reduced_operator q
                                   (num_particles (prepared v)))
                            (inr (qubitOp (prepared v)))) l
                 else qubitOp (prepared v) = q
     end.

(** ** What the notebook computes and what the library returns *)

(** The molecule attributes named in the determinism statement. *)
Definition same_attributes (m1 m2 : QMolecule) : Prop :=
  _num_orbitals m1 = _num_orbitals m2
  /\ _num_alpha m1 = _num_alpha m2
  /\ _num_beta m1 = _num_beta m2
  /\ _one_body_integrals m1 = _one_body_integrals m2
  /\ _two_body_integrals m1 = _two_body_integrals m2
  /\ _nuclear_repulsion_energy m1 = _nuclear_repulsion_energy m2.

(** The energy shifts that [fermion_mode_freezing] returned in a log. *)
Definition shift_returned (en : entry) : list float :=
  match en with
  | Entry c r =>
      match c in LibE X return exn + X -> list float with
      | fermion_mode_freezing _ _ => fun r =>
          match r with inr (_, shift) => [shift] | inl _ => [] end
      | _ => fun _ => []
      end r
  end.

Definition shifts_returned (l : list entry) : list float :=
  flat_map shift_returned l.

(** Determinism as described: two complete runs on molecules with the
    same attributes end with the same six values. *)
Definition determined_by_molecule : Prop :=
  forall (S1 S2 : Type) (lib1 : library S1) (lib2 : library S2)
         (s1 : S1) (s2 : S2) (v1 v2 : final_vars),
    result (exec lib1 notebook s1) = inr v1 ->
    result (exec lib2 notebook s2) = inr v2 ->
    same_attributes (molecule (prepared v1)) (molecule (prepared v2)) ->
    freeze_list (prepared v1) = freeze_list (prepared v2)
    /\ remove_list (prepared v1) = remove_list (prepared v2)
    /\ num_particles (prepared v1) = num_particles (prepared v2)
    /\ num_spin_orbitals (prepared v1) = num_spin_orbitals (prepared v2)
    /\ qubit_reduction (prepared v1) = qubit_reduction (prepared v2)
    /\ energy_shift (prepared v1) = energy_shift (prepared v2).

(** What one complete run leaves in the variables. *)
Definition values_of_run (l : list entry) (r : exn + final_vars) : Prop :=
  match r with
  | inl _ => True
  | inr v =>
      index_conversion (_num_orbitals (molecule (prepared v))) [0] [-3; -2]
      = inr (freeze_list (prepared v), remove_list (prepared v))
      /\ num_particles (prepared v)
         = _num_alpha (molecule (prepared v))
           + _num_beta (molecule (prepared v)) - 2
      /\ num_spin_orbitals (prepared v)
         = _num_orbitals (molecule (prepared v)) * 2 - 2 - 4
      /\ qubit_reduction (prepared v) = true
      /\ shifts_returned l = [energy_shift (prepared v)]
  end.

(** ** The reported energies *)

(** The lines printed with the format [fmt]. *)
Definition printed_with (fmt : string) (en : entry) : list pyval :=
  match en with
  | Entry c r =>
      match c in LibE X return exn + X -> list pyval with
      | print f a => fun r =>
          match r with
          | inr _ => if (f =? fmt)%string then [a] else []
          | inl _ => []
          end
      | _ => fun _ => []
      end r
  end.

Definition printed (fmt : string) (l : list entry) : list pyval :=
  flat_map (printed_with fmt) l.

(** The correction from a computed eigenvalue to a total energy. *)
Definition total_energy (energy_shift nuclear_repulsion_energy : float)
    (e : num) : num :=
  num_add (num_add e energy_shift) nuclear_repulsion_energy.

(** [d['eigvals'][0]] *)
Definition eigval0 (d : result_dict) : exn + num :=
  match getitem "eigvals" d with
  | inl e => inl e
  | inr a => first a
  end.

Definition totals_reported (l : list entry) (r : exn + final_vars) : Prop :=
  match r with
  | inl _ => True
  | inr v =>
      exists e_exact e_vqe : num,
        eigval0 (ret v) = inr e_exact
        /\ eigval0 (results v) = inr e_vqe
        /\ printed "The total ground state energy is: {:.12f}" l
           = [PNum (Real (real e_exact + energy_shift (prepared v)
                          + nuclear_repulsion_energy (prepared v))%float);
              PNum (num_add (num_add e_vqe (energy_shift (prepared v)))
                      (nuclear_repulsion_energy (prepared v)))]
        /\ nuclear_repulsion_energy (prepared v)
           = _nuclear_repulsion_energy (molecule (prepared v))
  end.

(** ** The forms of the library's call surface *)

(** How the notebook gets hold of something of the library's. *)
Inductive form : Type :=
| ConfigurationDictionary
| FactoryLookup (name : string)
| ResultDictionary
| ClassInstantiation (class : string)
| OperatorMethod (name : string)
| PropertyRead (name : string).

(** The form of one call; calls that hand nothing back have none. *)
Definition obtained_through {X : Type} (c : LibE X) : list form :=
  match c with
  | ConfigurationManager => [ClassInstantiation "ConfigurationManager"]
  | get_driver_instance _ name => [FactoryLookup name]
  | driver_run _ _ => [ConfigurationDictionary]
  | FermionicOperator _ _ => [ClassInstantiation "FermionicOperator"]
  | fermion_mode_freezing _ _ => [OperatorMethod "fermion_mode_freezing"]
  | fermion_mode_elimination _ _ =>
      [OperatorMethod "fermion_mode_elimination"]
  | mapping _ _ _ => [OperatorMethod "mapping"]
  | two_qubit_reduced_operator _ _ =>
      [OperatorMethod "two_qubit_reduced_operator"]
  | num_qubits _ => [PropertyRead "num_qubits"]
  | get_algorithm_instance name => [FactoryLookup name]
  | get_optimizer_instance name => [FactoryLookup name]
  | get_variational_form_instance name => [FactoryLookup name]
  | get_initial_state_instance name => [FactoryLookup name]
  | run _ => [ResultDictionary]
  | chop _ _
  | ExactEigensolver_init_args _ _ _
  | load_accounts
  | set_options _ _
  | HartreeFock_init_args _ _ _ _ _ _
  | UCCSD_init_args _ _ _ _ _ _ _ _ _ _ _
  | setup_quantum_backend _ _
  | VQE_init_args _ _ _ _ _
  | print _ _ => []
  end.

Definition entry_forms (en : entry) : list form :=
  match en with
  | Entry c _ => obtained_through c
  end.

Definition forms (l : list entry) : list form := flat_map entry_forms l.

Definition factory_names : list string :=
  ["PYSCF"; "ExactEigensolver"; "COBYLA"; "HartreeFock"; "UCCSD"; "VQE"].

(** The three forms the documentation names. *)
Definition stated_form (f : form) : Prop :=
  match f with
  | ConfigurationDictionary => True
  | FactoryLookup name => In name factory_names
  | ResultDictionary => True
  | ClassInstantiation _ => False
  | OperatorMethod _ => False
  | PropertyRead _ => False
  end.

Definition only_stated_forms : Prop :=
  forall (S : Type) (lib : library S) (s : S) (f : form),
    In f (forms (log (exec lib notebook s))) -> stated_form f.

(** The forms the notebook goes through, in order, when it runs to its
    end. *)
Definition forms_schedule : list form :=
  [ ClassInstantiation "ConfigurationManager"; FactoryLookup "PYSCF";
    ConfigurationDictionary;
    ClassInstantiation "FermionicOperator";
    OperatorMethod "fermion_mode_freezing";
    OperatorMethod "fermion_mode_elimination";
    OperatorMethod "mapping";
    OperatorMethod "two_qubit_reduced_operator";
    FactoryLookup "ExactEigensolver"; ResultDictionary;
    FactoryLookup "COBYLA";
    FactoryLookup "HartreeFock"; PropertyRead "num_qubits";
    FactoryLookup "UCCSD"; PropertyRead "num_qubits";
    FactoryLookup "VQE"; ResultDictionary ].

Definition follows_forms {A : Type} (l : list entry) (r : exn + A) : Prop :=
  initial_part (forms l) forms_schedule
  /\ (completed r -> forms l = forms_schedule).

(** ** More readings of a log *)

(** No call of the log failed. *)
Fixpoint no_call_failed (l : list entry) : Prop :=
  match l with
  | [] => True
  | en :: l' => failure en = None /\ no_call_failed l'
  end.

(** The exceptions that the notebook's own expressions raise. *)
Definition own_exceptions : list exn :=
  [ZeroDivisionError; KeyError "eigvals"; IndexError; KeyError "opt_params"].

Definition raises_own_exception {A : Type} (l : list entry) (r : exn + A)
  : Prop :=
  match r with
  | inl e => no_call_failed l -> In e own_exceptions
  | inr _ => True
  end.

(** The molecules that the driver returned in a log. *)
Definition molecule_returned (en : entry) : list QMolecule :=
  match en with
  | Entry c r =>
      match c in LibE X return exn + X -> list QMolecule with
      | driver_run _ _ => fun r =>
          match r with inr m => [m] | inl _ => [] end
      | _ => fun _ => []
      end r
  end.

Definition molecules (l : list entry) : list QMolecule :=
  flat_map molecule_returned l.

(** The dictionaries that the algorithms' [run()] returned in a log. *)
Definition dict_returned (en : entry) : list result_dict :=
  match en with
  | Entry c r =>
      match c in LibE X return exn + X -> list result_dict with
      | run _ => fun r => match r with inr d => [d] | inl _ => [] end
      | _ => fun _ => []
      end r
  end.

Definition dicts (l : list entry) : list result_dict :=
  flat_map dict_returned l.

(** The same library as [demo_library], with a driver that returns a
    molecule without orbitals. *)
Definition no_orbitals : QMolecule :=
  {| _one_body_integrals := {| shape := [0; 0]; data := [] |};
     _two_body_integrals := {| shape := [0; 0; 0; 0]; data := [] |};
     _nuclear_repulsion_energy := 0%float;
     _num_alpha := 0;
     _num_beta := 0;
     _num_orbitals := 0;
     _hf_energy := 0%float |}.

Definition no_orbitals_library : library nat :=
  fun X c =>
    match c in LibE X return nat -> (exn + X) * nat with
    | driver_run _ _ => fun s => (inr no_orbitals, s)
    | c' => demo_library 0%float _ c'
    end.

Definition stops_without_orbitals {A : Type} (l : list entry) (r : exn + A)
  : Prop :=
  forall m : QMolecule,
    In m (molecules l) ->
    _num_orbitals m = 0 ->
    ~ In "FermionicOperator" (names l)
    /\ ~ completed r
    /\ (no_call_failed l -> r = inl ZeroDivisionError).

(** What the library has to do for the notebook to run to its end. *)
Definition library_behaved (l : list entry) : Prop :=
  no_call_failed l
  /\ Forall (fun m => _num_orbitals m <> 0) (molecules l)
  /\ Forall (fun d => exists e, eigval0 d = inr e) (dicts l)
  /\ (forall d, nth_error (dicts l) 1 = Some d ->
        exists p, getitem "opt_params" d = inr p).

Definition completes_when_behaved {A : Type} (l : list entry) (r : exn + A)
  : Prop :=
  library_behaved l -> completed r.

(** ** The order of calls for any setting of step 2 *)

(** [schedule] with the three optional calls left out when their
    condition does not hold. *)
Definition schedule_with (freeze_list remove_list : list Z)
    (map_type : string) : list string :=
  [ "ConfigurationManager"; "get_driver_instance"; "driver.run";
    "print"; "print"; "print"; "FermionicOperator" ]
  ++ match freeze_list with [] => [] | _ :: _ => ["fermion_mode_freezing"] end
  ++ match remove_list with
     | [] => []
     | _ :: _ => ["fermion_mode_elimination"]
     end
  ++ ["mapping"]
  ++ (if (map_type =? "parity")%string
      then ["two_qubit_reduced_operator"] else [])
  ++ [ "chop";
       "get_algorithm_instance"; "init_args"; "run"; "print"; "print";
       "load_accounts";
       "get_optimizer_instance"; "set_options";
       "get_initial_state_instance"; "num_qubits"; "init_args";
       "get_variational_form_instance"; "num_qubits"; "init_args";
       "get_algorithm_instance"; "setup_quantum_backend"; "init_args";
       "run"; "print"; "print"; "print" ].

Definition follows_schedule_with (freeze_list remove_list : list Z)
    (map_type : string) {A : Type} (l : list entry) (r : exn + A) : Prop :=
  initial_part (names l) (schedule_with freeze_list remove_list map_type)
  /\ (completed r ->
      names l = schedule_with freeze_list remove_list map_type).

Definition nothing_frozen (l : list entry) (r : exn + final_vars) : Prop :=
  ~ In "fermion_mode_freezing" (names l)
  /\ match r with
     | inl _ => True
     | inr v =>
         freeze_list (prepared v) = []
         /\ energy_shift (prepared v) = 0%float
         /\ num_particles (prepared v)
            = _num_alpha (molecule (prepared v))
              + _num_beta (molecule (prepared v))
     end.

(** ** What the instances are configured with *)

(** The settings given to the HartreeFock state: the state, then
    [num_orbitals], [qubit_mapping], [two_qubit_reduction] and
    [num_particles]. *)
Definition hartree_fock_settings (en : entry)
  : list (obj * Z * string * bool * Z) :=
  match en with
  | Entry c _ =>
      match c with
      | HartreeFock_init_args st _ no qm red np => [(st, no, qm, red, np)]
      | _ => []
      end
  end.

(** The same settings as given to the UCCSD variational form, with its
    [initial_state]. *)
Definition uccsd_settings (en : entry)
  : list (obj * Z * string * bool * Z) :=
  match en with
  | Entry c _ =>
      match c with
      | UCCSD_init_args _ _ _ no np _ _ st qm red _ => [(st, no, qm, red, np)]
      | _ => []
      end
  end.

Definition settings_agree (l : list entry) (r : exn + final_vars) : Prop :=
  incl (flat_map uccsd_settings l) (flat_map hartree_fock_settings l)
  /\ match r with
     | inl _ => True
     | inr v =>
         exists st : obj,
           flat_map hartree_fock_settings l
           = [(st, num_spin_orbitals (prepared v), map_type (prepared v),
               qubit_reduction (prepared v), num_particles (prepared v))]
           /\ flat_map uccsd_settings l
              = flat_map hartree_fock_settings l
     end.

(** The operators handed to an algorithm or asked for [num_qubits]. *)
Definition operator_used (en : entry) : list obj :=
  match en with
  | Entry c _ =>
      match c with
      | ExactEigensolver_init_args _ q _ => [q]
      | VQE_init_args _ q _ _ _ => [q]
      | num_qubits q => [q]
      | _ => []
      end
  end.

(** The operators that [chop] was called on, and returned. *)
Definition operator_chopped (en : entry) : list obj :=
  match en with
  | Entry c r =>
      match c in LibE X return exn + X -> list obj with
      | chop q _ => fun r => match r with inr _ => [q] | inl _ => [] end
      | _ => fun _ => []
      end r
  end.

Definition uses_chopped_operator (l : list entry) (r : exn + final_vars)
  : Prop :=
  incl (flat_map operator_used l) (flat_map operator_chopped l)
  /\ match r with
     | inl _ => True
     | inr v => flat_map operator_chopped l = [qubitOp (prepared v)]
     end.

(** ** Reporting from a dictionary *)

Definition reports_or_raises (d : result_dict)
    (l : list entry) (r : exn + unit) : Prop :=
  match eigval0 d with
  | inl e => l = [] /\ r = inl e
  | inr _ =>
      match getitem "opt_params" d with
      | inl _ =>
          initial_part (names l) ["print"; "print"]
          /\ (no_call_failed l ->
              names l = ["print"; "print"]
              /\ r = inl (KeyError "opt_params"))
      | inr _ =>
          initial_part (names l) ["print"; "print"; "print"]
          /\ (no_call_failed l ->
              names l = ["print"; "print"; "print"] /\ r = inr tt)
      end
  end.

Definition counters_printed_before (l : list entry) (r : exn + final_vars)
  : Prop :=
  match r with
  | inl _ => True
  | inr v =>
      printed "# of electrons: {}" l
      = [PInt (num_particles (prepared v) + len (freeze_list (prepared v)))]
      /\ printed "# of spin orbitals: {}" l
         = [PInt (num_spin_orbitals (prepared v)
                  + len (freeze_list (prepared v))
                  + len (remove_list (prepared v)))]
  end.

(** * Properties *)

(** ** The program logic is sound *)

Lemma every_run_exec {A : Type} (p : prog A) :
  forall (Q : list entry -> exn + A -> Prop),
    every_run p Q ->
    forall (S : Type) (lib : library S) (s : S),
      Q (log (exec lib p s)) (result (exec lib p s)).
Proof.
  induction p as [A a | A e | A X c k IH | A B body IHb handler IHh k IHk];
    intros Q H S lib s; simpl in *.
  - exact H.
  - exact H.
  - destruct H as [Hfail Hok].
    destruct (lib X c s) as [[e | x] s']; simpl.
    + apply Hfail.
    + apply (IH x _ (Hok x)).
  - pose proof (IHb _ H S lib s) as H1.
    destruct (result (exec lib body s)) as [e | b].
    + pose proof (IHh e _ H1 S lib (final (exec lib body s))) as H2.
      destruct (result (exec lib (handler e) (final (exec lib body s))))
        as [e' | b]; simpl.
      * exact H2.
      * apply (IHk b _ H2).
    + apply (IHk b _ H1).
Qed.

Lemma every_run_weaken {A : Type} (p : prog A) :
  forall (Q Q' : list entry -> exn + A -> Prop),
    (forall l r, Q l r -> Q' l r) -> every_run p Q -> every_run p Q'.
Proof.
  induction p as [A a | A e | A X c k IH | A B body IHb handler IHh k IHk];
    intros Q Q' HQ H; simpl in *.
  - auto.
  - auto.
  - destruct H as [Hfail Hok]. split.
    + intros e. apply HQ, Hfail.
    + intros x. apply (IH x _ _ (fun l r => HQ _ r) (Hok x)).
  - revert H. apply IHb. intros l1 [e | b].
    + apply IHh. intros lh [e' | b].
      * apply HQ.
      * apply IHk. intros l r. apply HQ.
    + apply IHk. intros l r. apply HQ.
Qed.

Lemma same_behaviour_exec {A : Type} (p q : prog A) :
  same_behaviour p q ->
  forall (S : Type) (lib : library S) (s : S), exec lib p s = exec lib q s.
Proof.
  induction 1 as [A a | A e | A X c k k' _ IH
                 | A B body body' h h' k k' _ IHb _ IHh _ IHk];
    intros S lib s; simpl.
  - reflexivity.
  - reflexivity.
  - destruct (lib X c s) as [[e | x] s']; [reflexivity |].
    rewrite IH. reflexivity.
  - rewrite IHb.
    destruct (result (exec lib body' s)) as [e | b].
    + rewrite IHh.
      destruct (result (exec lib (h' e) (final (exec lib body' s))))
        as [e' | b]; [reflexivity |].
      rewrite IHk. reflexivity.
    + rewrite IHk. reflexivity.
Qed.

(** ** Stepping through the notebook *)

#[local] Arguments index_conversion : simpl never.
#[local] Arguments Z.modulo : simpl never.
#[local] Arguments Z.add : simpl never.
#[local] Arguments Z.sub : simpl never.
#[local] Arguments Z.mul : simpl never.
#[local] Arguments follows_schedule : simpl never.
#[local] Arguments keeps_bookkeeping : simpl never.
#[local] Arguments reduction_iff_parity : simpl never.
#[local] Arguments values_of_run : simpl never.
#[local] Arguments totals_reported : simpl never.
#[local] Arguments arguments_explained : simpl never.
#[local] Arguments follows_forms : simpl never.

(** The scrutinee a program is waiting for. *)
Ltac stuck_on p :=
  lazymatch p with
  | bind ?q _ => stuck_on q
  | lift ?x => x
  | match ?x with _ => _ end => x
  end.

(** One step of [every_run]: open a call into its failing and its
    answering case, name the answer, or split on what the program is
    waiting for. *)
Ltac run_step :=
  match goal with
  | |- _ /\ _ => split
  | |- forall _ : unit, _ => intros []
  | |- forall _ : _ * _, _ => intros [? ?]
  | |- forall _, _ => intro
  | |- every_run _ _ => progress cbn
  | |- every_run ?p _ => let x := stuck_on p in destruct x eqn:?
  end.

(** With the notebook's own lists the conversion is known as soon as the
    number of orbitals is known to be zero or not. *)
Ltac notebook_constants zero nonzero :=
  match goal with
  | |- context [index_conversion ?n [0] [-3; -2]] =>
      let E := fresh "E" in
      destruct (Z.eq_dec n 0) as [E | E];
      [ rewrite E, zero | rewrite (nonzero n E) ]
  end.

Ltac unfold_cells :=
  unfold notebook, notebook_linear, notebook_with, define_molecule,
    prepare_qubit_hamiltonian, prepare_qubit_hamiltonian_linear,
    exact_reference, report_reference, configure_instances,
    run_algorithm, report_results.

(** ** The index conversion on the notebook's lists *)

Lemma index_conversion_zero (fl rl : list Z) (x : Z) :
  index_conversion 0 fl (x :: rl) = inl ZeroDivisionError.
Proof. reflexivity. Qed.

Lemma index_conversion_notebook (n : Z) :
  n <> 0 ->
  index_conversion n [0] [-3; -2]
  = inr ([0 mod n; 0 mod n + n],
         [(-3) mod n - 1; (-2) mod n - 1;
          (-3) mod n - 1 + n - 1; (-2) mod n - 1 + n - 1]).
Proof.
  intros H. unfold index_conversion, mod_all, pymod.
  destruct (Z.eqb_spec n 0) as [E | _]; [contradiction | reflexivity].
Qed.

Ltac run_notebook :=
  unfold_cells;
  repeat first
    [ notebook_constants index_conversion_zero index_conversion_notebook
    | run_step ].

(** ** Order of the calls *)

Lemma precedesb_sound (a b : string) (l : list string) :
  forall seen : bool,
    precedesb a b seen l = true ->
    forall l1 l2, l = l1 ++ b :: l2 -> seen = true \/ In a l1.
Proof.
  induction l as [| x l IH]; intros seen H l1 l2 E.
  - destruct l1; discriminate.
  - simpl in H. apply andb_true_iff in H. destruct H as [Hx Hl].
    destruct l1 as [| y l1]; simpl in E; injection E as E1 E2.
    + subst x. rewrite String.eqb_refl in Hx. now left.
    + subst y. destruct (IH _ Hl _ _ E2) as [Hs | Hin].
      * apply orb_true_iff in Hs. destruct Hs as [Hs | Hs].
        -- now left.
        -- right. left. now apply String.eqb_eq in Hs.
      * right. now right.
Qed.

Lemma precedes_schedule (a b : string) :
  precedesb a b false schedule = true ->
  forall l, initial_part l schedule -> precedes a b l.
Proof.
  intros H l [rest E] l1 l2 El.
  destruct (precedesb_sound a b schedule false H l1 (l2 ++ rest)) as [F | F].
  - rewrite E, El, <- app_assoc. reflexivity.
  - discriminate.
  - exact F.
Qed.

Lemma notebook_follows_schedule : every_run notebook follows_schedule.
Proof.
  run_notebook; unfold follows_schedule;
    (split; [eexists; reflexivity
            | cbn; intros H; first [contradiction | reflexivity]]).
Qed.

(** C7: the calls of every run are made one after the other in the fixed
    order of [schedule], up to the point where the run ends: the driver
    run comes before the fermionic operator is built, freezing before
    elimination, elimination before the mapping, the mapping before the
    two-qubit reduction, the reduction before [chop], and [chop] before
    either [run] of an eigensolver. *)
Theorem notebook_call_order :
  forall (S : Type) (lib : library S) (s : S),
    initial_part (names (log (exec lib notebook s))) schedule
    /\ (completed (result (exec lib notebook s)) ->
        names (log (exec lib notebook s)) = schedule)
    /\ precedes "driver.run" "FermionicOperator"
         (names (log (exec lib notebook s)))
    /\ precedes "fermion_mode_freezing" "fermion_mode_elimination"
         (names (log (exec lib notebook s)))
    /\ precedes "fermion_mode_elimination" "mapping"
         (names (log (exec lib notebook s)))
    /\ precedes "mapping" "two_qubit_reduced_operator"
         (names (log (exec lib notebook s)))
    /\ precedes "two_qubit_reduced_operator" "chop"
         (names (log (exec lib notebook s)))
    /\ precedes "chop" "run" (names (log (exec lib notebook s))).
Proof.
  intros S lib s.
  destruct (every_run_exec _ _ notebook_follows_schedule S lib s)
    as [Hinit Hall].
  split; [exact Hinit |]. split; [exact Hall |].
  repeat split; apply precedes_schedule; (reflexivity || exact Hinit).
Qed.

(** ** No exception handling *)

Lemma handler_free_bind {A B : Type} (p : prog A) (f : A -> prog B) :
  handler_free p -> (forall a, handler_free (f a)) -> handler_free (bind p f).
Proof.
  intros Hp Hf. induction Hp as [A a | A e | A X c k _ IH]; simpl.
  - apply Hf.
  - constructor.
  - constructor. intros x. apply IH, Hf.
Qed.

Lemma handler_free_lift {A : Type} (r : exn + A) : handler_free (lift r).
Proof. destruct r; constructor. Qed.

Lemma handler_free_call {X : Type} (c : LibE X) : handler_free (call c).
Proof. constructor. intros x. constructor. Qed.

Create HintDb handlers.
#[local] Hint Resolve handler_free_lift handler_free_call : handlers.
#[local] Hint Constructors handler_free : handlers.

Ltac no_handlers :=
  repeat first
    [ apply handler_free_bind
    | intro
    | match goal with
      | |- handler_free (match ?x with _ => _ end) => destruct x
      | |- handler_free (let _ := _ in _) => cbv zeta
      end
    | solve [auto with handlers] ].

Lemma notebook_with_handler_free
    (freeze_list remove_list : list Z) (map_type : string) :
  handler_free (notebook_with freeze_list remove_list map_type).
Proof. unfold_cells. no_handlers. Qed.

(** Without a handler a failed call ends the run: it is the last line of
    the log and its exception is the result. *)
Lemma handler_free_propagates {A : Type} (p : prog A) :
  handler_free p ->
  forall (S : Type) (lib : library S) (s : S) (en : entry) (e : exn),
    In en (log (exec lib p s)) ->
    failure en = Some e ->
    result (exec lib p s) = inl e
    /\ exists before, log (exec lib p s) = before ++ [en].
Proof.
  induction 1 as [A a | A e0 | A X c k _ IH]; intros S lib s en e Hin Hf.
  - destruct Hin.
  - destruct Hin.
  - simpl in *. destruct (lib X c s) as [[e1 | x] s1]; simpl in *.
    + destruct Hin as [<- | []]. simpl in Hf. injection Hf as <-.
      split; [reflexivity | exists []; reflexivity].
    + destruct Hin as [<- | Hin]; [discriminate Hf |].
      destruct (IH x S lib s1 en e Hin Hf) as [Hr [before Hl]].
      split; [exact Hr |].
      exists (Entry c (inr x) :: before). rewrite Hl. reflexivity.
Qed.

(** C6: the notebook has no exception handler, so in every run a call
    that fails is the last thing the notebook does and the exception it
    failed with is, unchanged, the outcome of the notebook. *)
Theorem notebook_failure_propagates :
  handler_free notebook
  /\ forall (S : Type) (lib : library S) (s : S) (en : entry) (e : exn),
       In en (log (exec lib notebook s)) ->
       failure en = Some e ->
       result (exec lib notebook s) = inl e
       /\ exists before, log (exec lib notebook s) = before ++ [en].
Proof.
  split.
  - apply notebook_with_handler_free.
  - apply handler_free_propagates, notebook_with_handler_free.
Qed.

Lemma notebook_failure_propagates_witness :
  result (exec broken_driver_library notebook 0%nat)
  = inl (LibraryError "PySCF not installed").
Proof.
  apply (proj2 notebook_failure_propagates nat broken_driver_library 0%nat
           (Entry (driver_run (Obj 1) [("properties", pyscf_cfg)])
              (inl (LibraryError "PySCF not installed")))).
  - vm_compute. right. right. left. reflexivity.
  - reflexivity.
Defined.

(** ** The conditionals never change what the notebook does *)

Lemma same_behaviour_refl {A : Type} (p : prog A) : same_behaviour p p.
Proof.
  induction p; constructor; auto.
Qed.

Lemma notebook_same_as_linear : same_behaviour notebook notebook_linear.
Proof.
  unfold_cells. cbn.
  repeat (constructor; intros).
  notebook_constants index_conversion_zero index_conversion_notebook.
  - cbn. constructor.
  - repeat (cbn;
            first [ apply same_behaviour_refl
                  | constructor; intros;
                    try match goal with p : _ * _ |- _ => destruct p end ]).
Qed.

(** C4: for every library and every state it starts from, running the
    notebook gives the same log, the same result and the same final state
    as running the branch-free composition of its calls: the three
    conditionals of step 2 are always decided the same way. *)
Theorem notebook_is_straight_line :
  forall (S : Type) (lib : library S) (s : S),
    exec lib notebook s = exec lib notebook_linear s.
Proof.
  intros S lib s. apply same_behaviour_exec, notebook_same_as_linear.
Qed.

(** ** The converted index lists *)

Lemma mod_minus (k n : Z) : 0 < k <= n -> (- k) mod n = n - k.
Proof.
  intros H. symmetry. apply (Z.mod_unique (- k) n (-1) (n - k)); lia.
Qed.

Lemma index_conversion_values (n : Z) :
  4 <= n ->
  index_conversion n [0] [-3; -2]
  = inr ([0; n], [n - 4; n - 3; 2 * n - 5; 2 * n - 4]).
Proof.
  intros H. rewrite index_conversion_notebook by lia.
  rewrite Z.mod_0_l by lia.
  change (-3) with (- (3)). change (-2) with (- (2)).
  rewrite !mod_minus by lia.
  apply f_equal. apply f_equal2.
  - apply f_equal2; [reflexivity |]. apply f_equal2; [lia | reflexivity].
  - repeat (apply f_equal2; [lia |]). reflexivity.
Qed.

(** C2, as described, fails for 4 orbitals: the lists are [0; 4] and
    [0; 1; 3; 4], and the indices 0 and 4 each occur in both. *)
Lemma indices_collide_for_four_orbitals :
  4 <= 4 /\ ~ conversion_as_described 4.
Proof.
  split; [lia |]. intros [_ H]. cbn in H.
  inversion H as [| x l Hx _]. apply Hx. cbn. auto.
Qed.

(** C2: for [n >= 4] orbitals the conversion of [freeze_list = [0]] and
    [remove_list = [-3, -2]] gives [[0, n]] and
    [[n-4, n-3, 2n-5, 2n-4]]; the indices of each list are pairwise
    distinct, and the six of them together are pairwise distinct exactly
    when [n >= 6]. *)
Theorem index_conversion_result (n : Z) :
  4 <= n ->
  index_conversion n [0] [-3; -2]
  = inr ([0; n], [n - 4; n - 3; 2 * n - 5; 2 * n - 4])
  /\ NoDup [0; n]
  /\ NoDup [n - 4; n - 3; 2 * n - 5; 2 * n - 4]
  /\ (NoDup ([0; n] ++ [n - 4; n - 3; 2 * n - 5; 2 * n - 4]) <-> 6 <= n).
Proof.
  intros H. split; [apply index_conversion_values, H |].
  cbn [app]. rewrite !NoDup_cons_iff. cbn [In].
  repeat split; try (intros F; lia); apply NoDup_nil.
Qed.

Lemma index_conversion_result_witness :
  index_conversion 6 [0] [-3; -2] = inr ([0; 6], [2; 3; 7; 8])
  /\ NoDup ([0; 6] ++ [2; 3; 7; 8]).
Proof.
  destruct (index_conversion_result 6 ltac:(lia)) as [H1 [_ [_ H2]]].
  split; [exact H1 | apply H2; lia].
Defined.

(** ** The counters follow the lists *)

Ltac compare_lengths :=
  repeat match goal with
    | H : (_ >? _) = true |- _ =>
        rewrite Z.gtb_ltb in H; apply Z.ltb_lt in H
    | H : (_ >? _) = false |- _ =>
        rewrite Z.gtb_ltb in H; apply Z.ltb_ge in H
    end.

Lemma notebook_with_keeps_bookkeeping
    (freeze_list remove_list : list Z) (map_type : string) :
  every_run (notebook_with freeze_list remove_list map_type)
    keeps_bookkeeping.
Proof.
  run_notebook; unfold keeps_bookkeeping; try exact I;
    compare_lengths; unfold bookkeeping, len in *; cbn; lia.
Qed.

Lemma notebook_maintains_bookkeeping : maintains bookkeeping.
Proof.
  intros S lib s v H.
  pose proof (every_run_exec _ _
                (notebook_with_keeps_bookkeeping [0] [-3; -2] "parity")
                S lib s) as K.
  fold notebook in K. rewrite H in K. exact K.
Qed.

(** C3, as described, fails: the relation between the counters and the
    lists is an invariant that the notebook does maintain. *)
Lemma bookkeeping_is_an_invariant : ~ ~ maintains bookkeeping.
Proof.
  intros H. apply H, notebook_maintains_bookkeeping.
Qed.

(** C3: whatever step 2 starts from ([freeze_list], [remove_list],
    [map_type]) and whatever the library answers, a run that comes to its
    end has [num_spin_orbitals = 2 * num_orbitals - len(freeze_list)
    - len(remove_list)] and [num_particles = num_alpha + num_beta
    - len(freeze_list)], for the converted lists. *)
Theorem counters_follow_lists :
  forall (freeze_list0 remove_list0 : list Z) (map_type0 : string)
         (S : Type) (lib : library S) (s : S) (v : final_vars),
    result (exec lib (notebook_with freeze_list0 remove_list0 map_type0) s)
    = inr v ->
    bookkeeping (prepared v).
Proof.
  intros fl rl mt S lib s v H.
  pose proof (every_run_exec _ _
                (notebook_with_keeps_bookkeeping fl rl mt) S lib s) as K.
  rewrite H in K. exact K.
Qed.

Lemma counters_follow_lists_witness :
  bookkeeping
    {| molecule := LiH;
       freeze_list := [0; 6];
       remove_list := [2; 3; 7; 8];
       map_type := "parity";
       nuclear_repulsion_energy := _nuclear_repulsion_energy LiH;
       num_particles := 2;
       num_spin_orbitals := 6;
       energy_shift := 0%float;
       qubit_reduction := true;
       qubitOp := Obj 6 |}.
Proof.
  exact (counters_follow_lists [0] [-3; -2] "parity" nat
           (demo_library 0%float) 0%nat
           {| prepared := _; ret := demo_results; results := demo_results |}
           eq_refl).
Defined.

(** ** Two-qubit reduction and the mapping type *)

Lemma not_in_names (x : string) (l : list string) :
  existsb (String.eqb x) l = false -> ~ In x l.
Proof.
  intros H Hin.
  assert (existsb (String.eqb x) l = true) as K.
  { apply existsb_exists. exists x. split; [exact Hin | apply String.eqb_refl]. }
  congruence.
Qed.

Lemma notebook_with_reduction_iff_parity
    (freeze_list remove_list : list Z) (map_type : string) :
  every_run (notebook_with freeze_list remove_list map_type)
    (reduction_iff_parity map_type).
Proof.
  unfold_cells.
  destruct (String.eqb_spec map_type "parity") as [-> | Hne].
  - run_notebook; unfold reduction_iff_parity;
      (split; [reflexivity |]); try exact I;
      (split; [split; reflexivity |]);
      do 2 eexists; cbn [prepared qubit_reduction qubitOp num_particles];
      (split; [| idtac]); cbn; auto 20.
  - run_notebook; unfold reduction_iff_parity;
      (split;
       [ intros H; exfalso; revert H; apply not_in_names; reflexivity |]);
      try exact I;
      (split; [split; [discriminate | intros F; contradiction] |]);
      do 2 eexists; cbn [prepared qubit_reduction qubitOp num_particles];
      (split; [| reflexivity]); cbn; auto 20.
Qed.

(** C10: for every mapping type, [qubit_reduction] is [True] exactly when
    [map_type == 'parity']; [two_qubit_reduced_operator] is called only
    then; in a run that comes to its end with the parity mapping,
    [qubitOp] is what [two_qubit_reduced_operator(num_particles)] returned
    for the operator that [ferOp.mapping] returned, and with any other
    mapping it is the operator that [ferOp.mapping] returned. *)
Theorem two_qubit_reduction_iff_parity :
  forall (freeze_list0 remove_list0 : list Z) (map_type0 : string)
         (S : Type) (lib : library S) (s : S),
    (In "two_qubit_reduced_operator"
        (names
           (log (exec lib
                   (notebook_with freeze_list0 remove_list0 map_type0) s))) ->
     map_type0 = "parity")
    /\ forall v : final_vars,
         result
           (exec lib (notebook_with freeze_list0 remove_list0 map_type0) s)
         = inr v ->
         (qubit_reduction (prepared v) = true <-> map_type0 = "parity")
         /\ exists ferOp q : obj,
              In (Entry (mapping ferOp map_type0 0.00000001%float) (inr q))
                 (log (exec lib
                         (notebook_with freeze_list0 remove_list0 map_type0)
                         s))
              /\ if qubit_reduction (prepared v)
                 then
                   In (Entry
                         (two_qubit_reduced_operator q
                            (num_particles (prepared v)))
                         (inr (qubitOp (prepared v))))
                      (log (exec lib
                              (notebook_with freeze_list0 remove_list0
                                 map_type0) s))
                 else qubitOp (prepared v) = q.
Proof.
  intros fl rl mt S lib s.
  pose proof (every_run_exec _ _
                (notebook_with_reduction_iff_parity fl rl mt) S lib s) as K.
  destruct K as [K1 K2]. split; [exact K1 |].
  intros v Hv. rewrite Hv in K2. exact K2.
Qed.

Lemma two_qubit_reduction_iff_parity_witness :
  qubit_reduction
    (prepared
       {| prepared :=
            {| molecule := LiH;
               freeze_list := [0; 6];
               remove_list := [2; 3; 7; 8];
               map_type := "jordan_wigner";
               nuclear_repulsion_energy := _nuclear_repulsion_energy LiH;
               num_particles := 2;
               num_spin_orbitals := 6;
               energy_shift := 0%float;
               qubit_reduction := false;
               qubitOp := Obj 5 |};
          ret := demo_results;
          results := demo_results |})
  = true
  <-> "jordan_wigner" = "parity".
Proof.
  exact (proj1 (proj2 (two_qubit_reduction_iff_parity [0] [-3; -2]
                         "jordan_wigner" nat (demo_library 0%float) 0%nat)
                  _ eq_refl)).
Defined.

(** ** What is determined by the molecule *)

Lemma notebook_values_of_run : every_run notebook values_of_run.
Proof.
  run_notebook; unfold values_of_run; try exact I.
  cbn. rewrite (index_conversion_notebook _ E). repeat split.
Qed.

Lemma values_of_completed_run
    (S : Type) (lib : library S) (s : S) (v : final_vars) :
  result (exec lib notebook s) = inr v ->
  values_of_run (log (exec lib notebook s)) (inr v).
Proof.
  intros H. rewrite <- H. apply every_run_exec, notebook_values_of_run.
Qed.

(** C8, as described, fails: two libraries that return the same molecule
    and differ only in the energy shift that [fermion_mode_freezing]
    returns leave different values in [energy_shift]. *)
Lemma energy_shift_comes_from_library : ~ determined_by_molecule.
Proof.
  intros H.
  destruct (H nat nat (demo_library 1%float) (demo_library 2%float)
              0%nat 0%nat _ _ eq_refl eq_refl) as (_ & _ & _ & _ & _ & K).
  - repeat split.
  - cbn in K.
    assert (PrimFloat.eqb 1 1 = PrimFloat.eqb 2 1) as F
      by (rewrite K; reflexivity).
    vm_compute in F. discriminate F.
Qed.

(** C8: two runs that come to their end on molecules with the same
    [num_orbitals], [num_alpha] and [num_beta] leave the same
    [freeze_list], [remove_list], [num_particles], [num_spin_orbitals] and
    [qubit_reduction]; [energy_shift] is in each run the value that the
    library's [fermion_mode_freezing] returned, so it is the same in both
    when the library returned the same. *)
Theorem notebook_deterministic :
  forall (S1 S2 : Type) (lib1 : library S1) (lib2 : library S2)
         (s1 : S1) (s2 : S2) (v1 v2 : final_vars),
    result (exec lib1 notebook s1) = inr v1 ->
    result (exec lib2 notebook s2) = inr v2 ->
    same_attributes (molecule (prepared v1)) (molecule (prepared v2)) ->
    freeze_list (prepared v1) = freeze_list (prepared v2)
    /\ remove_list (prepared v1) = remove_list (prepared v2)
    /\ num_particles (prepared v1) = num_particles (prepared v2)
    /\ num_spin_orbitals (prepared v1) = num_spin_orbitals (prepared v2)
    /\ qubit_reduction (prepared v1) = qubit_reduction (prepared v2)
    /\ shifts_returned (log (exec lib1 notebook s1))
       = [energy_shift (prepared v1)]
    /\ shifts_returned (log (exec lib2 notebook s2))
       = [energy_shift (prepared v2)]
    /\ (shifts_returned (log (exec lib1 notebook s1))
        = shifts_returned (log (exec lib2 notebook s2)) ->
        energy_shift (prepared v1) = energy_shift (prepared v2)).
Proof.
  intros S1 S2 lib1 lib2 s1 s2 v1 v2 H1 H2 (Hn & Ha & Hb & _).
  destruct (values_of_completed_run S1 lib1 s1 v1 H1)
    as (C1 & P1 & O1 & R1 & E1).
  destruct (values_of_completed_run S2 lib2 s2 v2 H2)
    as (C2 & P2 & O2 & R2 & E2).
  rewrite Hn in C1. rewrite C1 in C2. injection C2 as Hf Hr.
  repeat split; congruence.
Qed.

Lemma notebook_deterministic_witness :
  freeze_list
    (prepared
       {| prepared :=
            {| molecule := LiH;
               freeze_list := [0; 6];
               remove_list := [2; 3; 7; 8];
               map_type := "parity";
               nuclear_repulsion_energy := _nuclear_repulsion_energy LiH;
               num_particles := 2;
               num_spin_orbitals := 6;
               energy_shift := 1%float;
               qubit_reduction := true;
               qubitOp := Obj 6 |};
          ret := demo_results;
          results := demo_results |})
  = [0; 6].
Proof.
  refine (proj1 (notebook_deterministic nat nat
                   (demo_library 1%float) (demo_library 2%float)
                   0%nat 0%nat _
                   {| prepared :=
                        {| molecule := LiH;
                           freeze_list := [0; 6];
                           remove_list := [2; 3; 7; 8];
                           map_type := "parity";
                           nuclear_repulsion_energy :=
                             _nuclear_repulsion_energy LiH;
                           num_particles := 2;
                           num_spin_orbitals := 6;
                           energy_shift := 2%float;
                           qubit_reduction := true;
                           qubitOp := Obj 6 |};
                      ret := demo_results;
                      results := demo_results |}
                   eq_refl eq_refl
                   (conj eq_refl (conj eq_refl (conj eq_refl
                      (conj eq_refl (conj eq_refl eq_refl))))))).
Defined.

(** ** The reported energies *)

Lemma notebook_totals_reported : every_run notebook totals_reported.
Proof.
  run_notebook; unfold totals_reported; try exact I.
  cbn. unfold eigval0.
  repeat match goal with H : _ = inr _ |- _ => rewrite H end.
  do 2 eexists. repeat split; eassumption.
Qed.

(** C9: in a run that comes to its end, exactly two totals are printed:
    [ret['eigvals'][0].real + energy_shift + nuclear_repulsion_energy]
    after the exact eigensolver and
    [results['eigvals'][0] + energy_shift + nuclear_repulsion_energy]
    after VQE, with the same [energy_shift] and the same
    [nuclear_repulsion_energy] (the molecule's); both are [total_energy]
    of the eigenvalue. *)
Theorem totals_use_the_same_correction :
  forall (S : Type) (lib : library S) (s : S) (v : final_vars),
    result (exec lib notebook s) = inr v ->
    exists e_exact e_vqe : num,
      eigval0 (ret v) = inr e_exact
      /\ eigval0 (results v) = inr e_vqe
      /\ printed "The total ground state energy is: {:.12f}"
           (log (exec lib notebook s))
         = [PNum (Real (real e_exact + energy_shift (prepared v)
                        + nuclear_repulsion_energy (prepared v))%float);
            PNum (num_add (num_add e_vqe (energy_shift (prepared v)))
                    (nuclear_repulsion_energy (prepared v)))]
      /\ Real (real e_exact + energy_shift (prepared v)
               + nuclear_repulsion_energy (prepared v))%float
         = total_energy (energy_shift (prepared v))
             (nuclear_repulsion_energy (prepared v)) (Real (real e_exact))
      /\ num_add (num_add e_vqe (energy_shift (prepared v)))
           (nuclear_repulsion_energy (prepared v))
         = total_energy (energy_shift (prepared v))
             (nuclear_repulsion_energy (prepared v)) e_vqe
      /\ nuclear_repulsion_energy (prepared v)
         = _nuclear_repulsion_energy (molecule (prepared v)).
Proof.
  intros S lib s v H.
  pose proof (every_run_exec _ _ notebook_totals_reported S lib s) as K.
  rewrite H in K. destruct K as (e1 & e2 & K1 & K2 & K3 & K4).
  exists e1, e2. repeat split; assumption.
Qed.

Lemma totals_use_the_same_correction_witness :
  printed "The total ground state energy is: {:.12f}"
    (log (exec (demo_library 0%float) notebook 0%nat))
  <> [].
Proof.
  destruct (totals_use_the_same_correction nat (demo_library 0%float) 0%nat
              _ eq_refl) as (e1 & e2 & _ & _ & K & _).
  rewrite K. discriminate.
Defined.

(** ** Where the arguments of the calls come from *)

Lemma computed_by_notebook_nonzero (m : QMolecule) :
  _num_orbitals m <> 0 ->
  computed_by_notebook m
  = [AInts [0 mod _num_orbitals m; 0 mod _num_orbitals m + _num_orbitals m];
     AInts [(-3) mod _num_orbitals m - 1; (-2) mod _num_orbitals m - 1;
            (-3) mod _num_orbitals m - 1 + _num_orbitals m - 1;
            (-2) mod _num_orbitals m - 1 + _num_orbitals m - 1];
     AInt (_num_alpha m + _num_beta m - 2);
     AInt (_num_orbitals m * 2 - 2 - 4);
     ABool true].
Proof.
  intros H. unfold computed_by_notebook.
  rewrite (index_conversion_notebook _ H). reflexivity.
Qed.

#[local] Arguments computed_by_notebook : simpl never.

Ltac pick :=
  lazymatch goal with
  | |- _ = _ => reflexivity
  | |- _ \/ _ => first [left; pick | right; pick]
  | |- In _ _ => progress cbn [In app]; pick
  end.

Ltac explain_all :=
  repeat match goal with
    | |- True => exact I
    | |- _ /\ _ => split
    | |- Forall _ [] => apply Forall_nil
    | |- Forall _ (_ :: _) => apply Forall_cons
    | |- Forall _ _ => progress cbn [entry_args call_args]
    | |- _ => progress cbv beta
    | E : _ <> 0 |- explained _ _ =>
        unfold explained, literals; cbn;
        rewrite (computed_by_notebook_nonzero _ E); pick
    | |- explained _ _ => unfold explained, literals; cbn; pick
    end.

Lemma notebook_arguments_explained : every_run notebook arguments_explained.
Proof.
  run_notebook; unfold arguments_explained; cbn; explain_all.
Qed.

Lemma explained_in_order_split (l : list entry) :
  forall before : list entry,
    explained_in_order before l ->
    forall (l1 : list entry) (en : entry) (l2 : list entry),
      l = l1 ++ en :: l2 ->
      Forall (explained (before ++ l1)) (entry_args en).
Proof.
  induction l as [| x l IH]; intros before H l1 en l2 E.
  - destruct l1; discriminate.
  - destruct H as [Hx Hl]. destruct l1 as [| y l1]; injection E as E1 E2.
    + subst x. rewrite app_nil_r. exact Hx.
    + subst y. specialize (IH _ Hl l1 en l2 E2).
      rewrite <- app_assoc in IH. exact IH.
Qed.

(** C1, as described, fails: in the run against [demo_library] the list
    [[0, 6]] handed to [fermion_mode_freezing] is no attribute of any
    library object (nor a literal, nor an object the library returned);
    the notebook computed it from [_num_orbitals]. *)
Lemma freeze_list_is_not_an_attribute : ~ passes_only_attributes.
Proof.
  intros H.
  specialize (H nat (demo_library 0%float) 0%nat
                (Entry (fermion_mode_freezing (Obj 2) [0; 6])
                   (inr (Obj 3, 0%float)))
                (AInts [0; 6])).
  vm_compute in H.
  repeat match type of H with
         | (_ \/ _) -> _ =>
             first [ specialize (H (or_introl eq_refl))
                   | specialize (fun K => H (or_intror K)) ]
         end.
  decompose [or] H; first [discriminate | contradiction].
Qed.

(** C1: every argument of every library call of every run is one of: a
    literal written in the notebook; an attribute read earlier from a
    library object and passed on as it is (the molecule's integrals, the
    operator's [num_qubits]); a library object that an earlier call
    returned; or a value the notebook computes itself from the
    [_num_orbitals], [_num_alpha] and [_num_beta] of the molecule it was
    given, namely the converted [freeze_list] and [remove_list],
    [num_particles], [num_spin_orbitals] and [qubit_reduction]. *)
Theorem call_arguments_explained :
  forall (S : Type) (lib : library S) (s : S)
         (before : list entry) (en : entry) (after : list entry) (a : arg),
    log (exec lib notebook s) = before ++ en :: after ->
    In a (entry_args en) ->
    explained before a.
Proof.
  intros S lib s before en after a Hlog Ha.
  pose proof (every_run_exec _ _ notebook_arguments_explained S lib s) as K.
  unfold arguments_explained in K.
  pose proof (explained_in_order_split _ _ K before en after Hlog) as F.
  rewrite Forall_forall in F. exact (F a Ha).
Qed.

Lemma call_arguments_explained_witness :
  explained (firstn 7 (log (exec (demo_library 0%float) notebook 0%nat)))
    (AInts [0; 6]).
Proof.
  apply (call_arguments_explained nat (demo_library 0%float) 0%nat
           (firstn 7 (log (exec (demo_library 0%float) notebook 0%nat)))
           (Entry (fermion_mode_freezing (Obj 2) [0; 6])
              (inr (Obj 3, 0%float)))
           (skipn 8 (log (exec (demo_library 0%float) notebook 0%nat)))).
  - vm_compute. reflexivity.
  - vm_compute. left. reflexivity.
Defined.

(** ** The forms of the call surface *)

Lemma notebook_follows_forms : every_run notebook follows_forms.
Proof.
  run_notebook; unfold follows_forms;
    (split; [eexists; reflexivity
            | cbn; intros H; first [contradiction | reflexivity]]).
Qed.

(** The reporting code reads a result dictionary by two keys only. *)
Lemma reports_read_two_keys (v : vars) (d d' : result_dict) :
  getitem "eigvals" d = getitem "eigvals" d' ->
  getitem "opt_params" d = getitem "opt_params" d' ->
  report_reference v d = report_reference v d'
  /\ report_results v d = report_results v d'.
Proof.
  intros H1 H2. unfold report_reference, report_results.
  rewrite H1, H2. split; reflexivity.
Qed.

(** C5, as described, fails: the fermionic operator is made by calling its
    class, which is none of the three forms named. *)
Lemma operator_is_instantiated_directly : ~ only_stated_forms.
Proof.
  intros H.
  apply (H nat (demo_library 0%float) 0%nat
           (ClassInstantiation "FermionicOperator")).
  vm_compute. do 3 right. left. reflexivity.
Qed.

(** C5: in every run the notebook goes through the forms of
    [forms_schedule] in that order: the driver, both algorithms, the
    optimizer, the initial state and the variational form come from
    factory lookups by the names 'PYSCF', 'ExactEigensolver', 'COBYLA',
    'HartreeFock', 'UCCSD' and 'VQE', the molecule from the driver run on
    the configuration dictionary, and both results are dictionaries, read
    by the keys 'eigvals' and 'opt_params' only; but
    [ConfigurationManager] and [FermionicOperator] are made by calling the
    class, the frozen, reduced, mapped and two-qubit-reduced operators are
    returned by operator methods, and [num_qubits] is read as a
    property. *)
Theorem notebook_interface_forms :
  forall (S : Type) (lib : library S) (s : S),
    initial_part (forms (log (exec lib notebook s))) forms_schedule
    /\ (completed (result (exec lib notebook s)) ->
        forms (log (exec lib notebook s)) = forms_schedule)
    /\ (forall f, In f (forms (log (exec lib notebook s))) ->
          match f with
          | FactoryLookup name => In name factory_names
          | ClassInstantiation class =>
              class = "ConfigurationManager" \/ class = "FermionicOperator"
          | _ => True
          end)
    /\ (forall (v : vars) (d d' : result_dict),
          getitem "eigvals" d = getitem "eigvals" d' ->
          getitem "opt_params" d = getitem "opt_params" d' ->
          report_reference v d = report_reference v d'
          /\ report_results v d = report_results v d').
Proof.
  intros S lib s.
  destruct (every_run_exec _ _ notebook_follows_forms S lib s)
    as [Hinit Hall].
  split; [exact Hinit |]. split; [exact Hall |].
  split; [| apply reports_read_two_keys].
  intros f Hf. destruct Hinit as [rest E].
  assert (In f forms_schedule) as K by (rewrite E; apply in_or_app; now left).
  cbn in K. decompose [or] K; try contradiction; subst f; cbn; auto 10.
Qed.

(** ** The run against the demo library *)

Example demo_run_completes :
  names (log (exec (demo_library 0%float) notebook 0%nat)) = schedule
  /\ completed (result (exec (demo_library 0%float) notebook 0%nat)).
Proof. split; [reflexivity | exact I]. Qed.

(** The counters the notebook prints for LiH: 4 electrons, 12 spin
    orbitals. *)
Example demo_run_prints_counters :
  printed "# of electrons: {}"
    (log (exec (demo_library 0%float) notebook 0%nat)) = [PInt 4]
  /\ printed "# of spin orbitals: {}"
       (log (exec (demo_library 0%float) notebook 0%nat)) = [PInt 12].
Proof. split; reflexivity. Qed.

Example LiH_index_conversion :
  index_conversion 6 [0] [-3; -2] = inr ([0; 6], [2; 3; 7; 8]).
Proof. reflexivity. Qed.

Example no_orbitals_raises :
  result (exec (fun X c s =>
                  match c in LibE X return (exn + X) * nat with
                  | driver_run _ _ =>
                      (inr {| _one_body_integrals := _one_body_integrals LiH;
                              _two_body_integrals := _two_body_integrals LiH;
                              _nuclear_repulsion_energy := 0%float;
                              _num_alpha := 0;
                              _num_beta := 0;
                              _num_orbitals := 0;
                              _hf_energy := 0%float |}, s)
                  | c' => demo_library 0%float _ c' s
                  end) notebook 0%nat)
  = inl ZeroDivisionError.
Proof. reflexivity. Qed.

(** With no orbital to freeze or remove the two conditionals skip their
    calls. *)
Example nothing_to_freeze :
  names (log (exec (demo_library 0%float)
                (prepare_qubit_hamiltonian [] [] "jordan_wigner" LiH) 0%nat))
  = ["print"; "print"; "print"; "FermionicOperator"; "mapping"; "chop"].
Proof. reflexivity. Qed.

(** * Further properties of the notebook's code *)

(** ** The index conversion in general *)

Lemma mod_all_zero (l : list Z) :
  mod_all l 0 = match l with [] => inr [] | _ :: _ => inl ZeroDivisionError end.
Proof. destruct l; reflexivity. Qed.

Lemma mod_all_nonzero (l : list Z) (n : Z) :
  n <> 0 -> mod_all l n = inr (map (fun x => x mod n) l).
Proof.
  intros H. induction l as [| x l IH]; [reflexivity |].
  simpl. unfold pymod. destruct (Z.eqb_spec n 0) as [E | _]; [contradiction |].
  rewrite IH. reflexivity.
Qed.

(** The lists the conversion gives when there is an orbital to divide
    by: each list is its indices modulo [n], followed by the same indices
    moved into the second spin sector. *)
Lemma index_conversion_nonzero (n : Z) (freeze_list remove_list : list Z) :
  n <> 0 ->
  index_conversion n freeze_list remove_list
  = inr (map (fun x => x mod n) freeze_list
           ++ map (fun x => x mod n + n) freeze_list,
         map (fun x => x mod n - len freeze_list) remove_list
           ++ map (fun x => x mod n - len freeze_list + n - len freeze_list)
                remove_list).
Proof.
  intros H. unfold index_conversion.
  rewrite !mod_all_nonzero by exact H.
  unfold len. rewrite !length_map, !map_map. reflexivity.
Qed.

(** X1: the conversion raises only [ZeroDivisionError], and it raises it
    exactly when the molecule has no orbital and one of the two lists has
    an index to convert; two empty lists are converted (to two empty
    lists) even then. *)
Theorem index_conversion_raises_iff
    (n : Z) (freeze_list remove_list : list Z) (e : exn) :
  index_conversion n freeze_list remove_list = inl e
  <-> e = ZeroDivisionError
      /\ n = 0 /\ (freeze_list <> [] \/ remove_list <> []).
Proof.
  destruct (Z.eq_dec n 0) as [-> | Hn].
  - unfold index_conversion. rewrite !mod_all_zero.
    destruct remove_list, freeze_list; cbn; split; intros H;
      try discriminate H;
      try (injection H as <-; repeat split;
           first [left; discriminate | right; discriminate]);
      destruct H as (-> & _ & [K | K]); try reflexivity; contradiction.
  - rewrite index_conversion_nonzero by exact Hn.
    split; [discriminate | intros (_ & H & _); contradiction].
Qed.

(** X2: when the conversion returns, each list has doubled in length: one
    index per spin sector for every orbital given. *)
Theorem index_conversion_doubles
    (n : Z) (freeze_list remove_list freeze_list' remove_list' : list Z) :
  index_conversion n freeze_list remove_list
  = inr (freeze_list', remove_list') ->
  len freeze_list' = 2 * len freeze_list
  /\ len remove_list' = 2 * len remove_list.
Proof.
  destruct (Z.eq_dec n 0) as [-> | Hn].
  - unfold index_conversion. rewrite !mod_all_zero.
    destruct remove_list, freeze_list; try discriminate.
    intros H. injection H as <- <-. split; reflexivity.
  - rewrite index_conversion_nonzero by exact Hn.
    intros H. injection H as <- <-.
    unfold len. rewrite !length_app, !length_map. lia.
Qed.

Lemma index_conversion_doubles_witness :
  len [0; 6] = 2 * len [0] /\ len [2; 3; 7; 8] = 2 * len [-3; -2].
Proof.
  exact (index_conversion_doubles 6 [0] [-3; -2] [0; 6] [2; 3; 7; 8] eq_refl).
Defined.

(** X3: with [n > 0] orbitals every converted freeze index is a spin
    orbital, 0 <= i < 2n; and when every orbital to remove lies, modulo
    [n], above the [len(freeze_list)] lowest ones, every converted remove
    index is a spin orbital left after freezing,
    0 <= i < 2n - 2 len(freeze_list). *)
Theorem index_conversion_in_range
    (n : Z) (freeze_list remove_list freeze_list' remove_list' : list Z) :
  0 < n ->
  index_conversion n freeze_list remove_list
  = inr (freeze_list', remove_list') ->
  Forall (fun i => 0 <= i < 2 * n) freeze_list'
  /\ (Forall (fun x => len freeze_list <= x mod n) remove_list ->
      Forall (fun i => 0 <= i < 2 * n - 2 * len freeze_list) remove_list').
Proof.
  intros Hn. rewrite index_conversion_nonzero by lia.
  intros H. injection H as <- <-. split.
  - apply Forall_app. split; apply Forall_map, Forall_forall; intros x _;
      pose proof (Z.mod_pos_bound x n Hn); lia.
  - intros Hr. apply Forall_app.
    split; apply Forall_map; (eapply Forall_impl; [| exact Hr]);
      cbv beta; intros x Hx; pose proof (Z.mod_pos_bound x n Hn); lia.
Qed.

Lemma index_conversion_in_range_witness :
  Forall (fun i => 0 <= i < 2 * 6) [0; 6]
  /\ Forall (fun i => 0 <= i < 2 * 6 - 2 * len [0]) [2; 3; 7; 8].
Proof.
  destruct (index_conversion_in_range 6 [0] [-3; -2] [0; 6] [2; 3; 7; 8]
              ltac:(lia) eq_refl) as [H1 H2].
  split; [exact H1 | apply H2].
  repeat constructor; cbn; vm_compute; discriminate.
Defined.

(** X4: an index and any index congruent to it modulo the number of
    orbitals are converted alike, so a negative index stands for the
    orbital counted from the end. *)
Theorem index_conversion_congruent
    (n : Z) (freeze_list freeze_list2 remove_list remove_list2 : list Z) :
  Forall2 (fun x y => x mod n = y mod n) freeze_list freeze_list2 ->
  Forall2 (fun x y => x mod n = y mod n) remove_list remove_list2 ->
  index_conversion n freeze_list remove_list
  = index_conversion n freeze_list2 remove_list2.
Proof.
  intros Hf Hr.
  assert (forall l l2, Forall2 (fun x y => x mod n = y mod n) l l2 ->
            mod_all l n = mod_all l2 n) as K.
  { induction 1 as [| x y l l2 Hxy _ IH]; [reflexivity |].
    simpl. unfold pymod. rewrite Hxy, IH. reflexivity. }
  unfold index_conversion. rewrite (K _ _ Hf), (K _ _ Hr). reflexivity.
Qed.

Lemma index_conversion_congruent_witness :
  index_conversion 6 [0] [-3; -2] = index_conversion 6 [6] [3; 4].
Proof.
  apply index_conversion_congruent; repeat constructor.
Defined.




(** Without that proviso the remove list can come out with a repeated
    index: removing orbitals 5 and 0 of 6 with one orbital frozen gives
    [4, -1, 9, 4]. *)
Example remove_below_frozen_repeats :
  index_conversion 6 [0] [5; 0] = inr ([0; 6], [4; -1; 9; 4]).
Proof. reflexivity. Qed.

(** ** Failures of the notebook's own *)

#[local] Arguments raises_own_exception : simpl never.
#[local] Arguments stops_without_orbitals : simpl never.
#[local] Arguments completes_when_behaved : simpl never.
#[local] Arguments follows_schedule_with : simpl never.
#[local] Arguments nothing_frozen : simpl never.
#[local] Arguments settings_agree : simpl never.
#[local] Arguments uses_chopped_operator : simpl never.
#[local] Arguments reports_or_raises : simpl never.
#[local] Arguments counters_printed_before : simpl never.

Lemma getitem_error (key : string) (d : result_dict) (e : exn) :
  getitem key d = inl e -> e = KeyError key.
Proof.
  induction d as [| [k v] d IH]; simpl.
  - intros H. injection H as <-. reflexivity.
  - destruct (k =? key)%string; [discriminate | exact IH].
Qed.

Lemma first_error (a : list num) (e : exn) : first a = inl e -> e = IndexError.
Proof.
  destruct a; simpl; [| discriminate]. intros H. injection H as <-. reflexivity.
Qed.

Lemma index_conversion_error (n : Z) (fl rl : list Z) (e : exn) :
  index_conversion n fl rl = inl e -> e = ZeroDivisionError /\ n = 0.
Proof.
  destruct (Z.eq_dec n 0) as [-> | Hn].
  - unfold index_conversion. rewrite !mod_all_zero.
    destruct rl, fl; cbn; intros H; try discriminate H;
      injection H as <-; split; reflexivity.
  - rewrite index_conversion_nonzero by exact Hn. discriminate.
Qed.

Lemma index_conversion_lengths (n : Z) (fl rl fl' rl' : list Z) :
  index_conversion n fl rl = inr (fl', rl') ->
  (fl' = [] <-> fl = []) /\ (rl' = [] <-> rl = []).
Proof.
  destruct (Z.eq_dec n 0) as [-> | Hn].
  - unfold index_conversion. rewrite !mod_all_zero.
    destruct rl, fl; try discriminate.
    intros H. injection H as <- <-. split; split; reflexivity.
  - rewrite index_conversion_nonzero by exact Hn.
    intros H. injection H as <- <-.
    destruct fl, rl; cbn; split; split; (reflexivity || discriminate).
Qed.

(** What the stuck expressions of the notebook raise. *)
Ltac own_errors :=
  repeat match goal with
    | H : getitem _ _ = inl _ |- _ => apply getitem_error in H; subst
    | H : first _ = inl _ |- _ => apply first_error in H; subst
    | H : index_conversion _ _ _ = inl _ |- _ =>
        apply index_conversion_error in H; destruct H as [-> ?]
    end.

(** A failed call in a log that is said to have none. *)
Ltac failed_call :=
  match goal with
  | H : no_call_failed _ |- _ =>
      cbn in H; decompose [and] H; discriminate
  end.

Lemma notebook_with_raises_own_exception
    (freeze_list remove_list : list Z) (map_type : string) :
  every_run (notebook_with freeze_list remove_list map_type)
    raises_own_exception.
Proof.
  run_notebook; unfold raises_own_exception; try exact I;
    intros F; try failed_call; own_errors; cbn; auto.
Qed.

(** X6: whatever step 2 starts from, when a run ends with an exception
    although no call failed, the exception is one of the four the
    notebook's own expressions raise: [ZeroDivisionError] (from
    [x % molecule._num_orbitals]), [KeyError('eigvals')], [IndexError]
    (from [['eigvals'][0]]) or [KeyError('opt_params')]. *)
Theorem notebook_own_exceptions :
  forall (freeze_list0 remove_list0 : list Z) (map_type0 : string)
         (S : Type) (lib : library S) (s : S) (e : exn),
    result (exec lib (notebook_with freeze_list0 remove_list0 map_type0) s)
    = inl e ->
    no_call_failed
      (log (exec lib (notebook_with freeze_list0 remove_list0 map_type0) s)) ->
    In e own_exceptions.
Proof.
  intros fl rl mt S lib s e H.
  pose proof (every_run_exec _ _
                (notebook_with_raises_own_exception fl rl mt) S lib s) as K.
  rewrite H in K. exact K.
Qed.

Lemma notebook_own_exceptions_witness : In ZeroDivisionError own_exceptions.
Proof.
  apply (notebook_own_exceptions [0] [-3; -2] "parity" nat
           no_orbitals_library 0%nat ZeroDivisionError).
  - reflexivity.
  - vm_compute. tauto.
Defined.

Lemma notebook_stops_without_orbitals :
  every_run notebook stops_without_orbitals.
Proof.
  run_notebook; unfold stops_without_orbitals; intros m Hm Hz;
    cbn in Hm; try contradiction;
    (destruct Hm as [<- | []]); try contradiction;
    (split; [apply not_in_names; reflexivity |]);
    (split; [intros []|]); intros F; first [failed_call | reflexivity].
Qed.

(** X7: when the driver returns a molecule with no orbitals, the notebook
    never builds the fermionic operator: the run does not come to its end,
    and if no call fails it ends with [ZeroDivisionError] raised by the
    index conversion. *)
Theorem no_operator_without_orbitals :
  forall (S : Type) (lib : library S) (s : S) (m : QMolecule),
    In m (molecules (log (exec lib notebook s))) ->
    _num_orbitals m = 0 ->
    ~ In "FermionicOperator" (names (log (exec lib notebook s)))
    /\ ~ completed (result (exec lib notebook s))
    /\ (no_call_failed (log (exec lib notebook s)) ->
        result (exec lib notebook s) = inl ZeroDivisionError).
Proof.
  intros S lib s.
  apply (every_run_exec _ _ notebook_stops_without_orbitals S lib s).
Qed.

Lemma no_operator_without_orbitals_witness :
  result (exec no_orbitals_library notebook 0%nat) = inl ZeroDivisionError.
Proof.
  apply (no_operator_without_orbitals nat no_orbitals_library 0%nat
           no_orbitals).
  - vm_compute. left. reflexivity.
  - reflexivity.
  - vm_compute. tauto.
Defined.

(** ** Runs that come to their end *)

(** The facts a list of well-formed dictionaries gives. *)
Ltac dict_facts D :=
  repeat match type of D with
    | Forall _ (_ :: _) =>
        let H := fresh "Hd" in
        pose proof (Forall_inv D) as H; apply Forall_inv_tail in D;
        destruct H as [? H]; unfold eigval0 in H
    end.

Ltac contradict_dicts :=
  repeat match goal with
    | H : getitem ?k ?d = _, Hd : context [getitem ?k ?d] |- _ =>
        rewrite H in Hd
    | H : first ?a = _, Hd : context [first ?a] |- _ => rewrite H in Hd
    end;
  match goal with
  | Hd : _ = inr _ |- _ => discriminate Hd
  end.

Lemma notebook_completes_when_behaved :
  every_run notebook completes_when_behaved.
Proof.
  run_notebook; unfold completes_when_behaved, library_behaved;
    intros (F & M & D & P); try exact I; try failed_call; exfalso;
    cbn in M, D, P;
    first
      [ apply Forall_inv in M; contradiction
      | dict_facts D;
        try (destruct (P _ eq_refl) as [? Hp]);
        contradict_dicts ].
Qed.

(** X8: the notebook runs to its end whenever the library behaves: no
    call fails, the molecule has at least one orbital, both algorithms
    return a dictionary with a non-empty 'eigvals', and VQE's dictionary
    has 'opt_params'. *)
Theorem notebook_completes :
  forall (S : Type) (lib : library S) (s : S),
    library_behaved (log (exec lib notebook s)) ->
    completed (result (exec lib notebook s)).
Proof.
  intros S lib s.
  apply (every_run_exec _ _ notebook_completes_when_behaved S lib s).
Qed.

Lemma notebook_completes_witness :
  completed (result (exec (demo_library 0%float) notebook 0%nat)).
Proof.
  apply notebook_completes. unfold library_behaved. vm_compute.
  repeat split; try tauto.
  - repeat constructor. discriminate.
  - repeat constructor; eexists; reflexivity.
  - intros d H. injection H as <-. eexists. reflexivity.
Defined.

(** ** The order of calls for any setting *)

Lemma index_conversion_nonempty (n : Z) (fl rl fl' rl' : list Z) :
  index_conversion n fl rl = inr (fl', rl') ->
  (len fl' >? 0) = match fl with [] => false | _ :: _ => true end
  /\ (len rl' >? 0) = match rl with [] => false | _ :: _ => true end.
Proof.
  intros H. apply index_conversion_lengths in H.
  destruct H as [[Hf1 Hf2] [Hr1 Hr2]].
  destruct fl, rl, fl', rl'; split; try reflexivity;
    try (discriminate (Hf1 eq_refl)); try (discriminate (Hf2 eq_refl));
    try (discriminate (Hr1 eq_refl)); try (discriminate (Hr2 eq_refl)).
Qed.

(** With lists that are not known, the two conditionals are decided by
    whether the lists given are empty. *)
Ltac general_lists :=
  match goal with
  | H : index_conversion _ ?fl ?rl = inr (?l, ?l0)
    |- context [len ?l >? 0] =>
      rewrite (proj1 (index_conversion_nonempty _ _ _ _ _ H)),
        (proj2 (index_conversion_nonempty _ _ _ _ _ H));
      destruct fl, rl
  end.

Ltac run_notebook_with :=
  unfold_cells; repeat first [general_lists | run_step].

Lemma notebook_with_follows_schedule
    (freeze_list remove_list : list Z) (map_type : string) :
  every_run (notebook_with freeze_list remove_list map_type)
    (follows_schedule_with freeze_list remove_list map_type).
Proof.
  unfold_cells.
  destruct (String.eqb_spec map_type "parity") as [-> | Hne];
    run_notebook_with; unfold follows_schedule_with, schedule_with;
    try (rewrite (proj2 (String.eqb_neq _ _) Hne));
    (split; [eexists; reflexivity
            | cbn; intros ?; first [contradiction | reflexivity]]).
Qed.

(** X9: whatever step 2 starts from, the calls of every run are made in
    the order of [schedule], with [fermion_mode_freezing] left out
    exactly when [freeze_list] is empty, [fermion_mode_elimination]
    exactly when [remove_list] is empty, and
    [two_qubit_reduced_operator] exactly when [map_type] is not
    'parity'. *)
Theorem notebook_with_call_order :
  forall (freeze_list0 remove_list0 : list Z) (map_type0 : string)
         (S : Type) (lib : library S) (s : S),
    initial_part
      (names
         (log (exec lib
                 (notebook_with freeze_list0 remove_list0 map_type0) s)))
      (schedule_with freeze_list0 remove_list0 map_type0)
    /\ (completed
          (result
             (exec lib
                (notebook_with freeze_list0 remove_list0 map_type0) s)) ->
        names
          (log (exec lib
                  (notebook_with freeze_list0 remove_list0 map_type0) s))
        = schedule_with freeze_list0 remove_list0 map_type0).
Proof.
  intros fl rl mt S lib s.
  apply (every_run_exec _ _ (notebook_with_follows_schedule fl rl mt) S lib s).
Qed.

Lemma notebook_with_nothing_frozen
    (remove_list : list Z) (map_type : string) :
  every_run (notebook_with [] remove_list map_type) nothing_frozen.
Proof.
  unfold_cells.
  destruct (String.eqb_spec map_type "parity") as [-> | Hne];
    repeat first
      [ match goal with
        | H : index_conversion _ [] ?rl = inr (?l, ?l0)
          |- context [len ?l >? 0] =>
            rewrite (proj1 (index_conversion_nonempty _ _ _ _ _ H));
            apply index_conversion_lengths in H;
            destruct H as [[_ H] _]; rewrite (H eq_refl) in *
        end
      | run_step ];
    unfold nothing_frozen;
    (split; [apply not_in_names; reflexivity |]);
    try exact I; cbn; repeat split.
Qed.

(** X10: with an empty [freeze_list], whatever [remove_list] and
    [map_type] are, [fermion_mode_freezing] is never called, and a run
    that comes to its end leaves [freeze_list] empty, [energy_shift] at
    its initial [0.0] and [num_particles] at [num_alpha + num_beta]. *)
Theorem nothing_to_freeze_keeps_energy_shift :
  forall (remove_list0 : list Z) (map_type0 : string)
         (S : Type) (lib : library S) (s : S),
    ~ In "fermion_mode_freezing"
        (names (log (exec lib (notebook_with [] remove_list0 map_type0) s)))
    /\ forall v : final_vars,
         result (exec lib (notebook_with [] remove_list0 map_type0) s)
         = inr v ->
         freeze_list (prepared v) = []
         /\ energy_shift (prepared v) = 0%float
         /\ num_particles (prepared v)
            = _num_alpha (molecule (prepared v))
              + _num_beta (molecule (prepared v)).
Proof.
  intros rl mt S lib s.
  pose proof (every_run_exec _ _
                (notebook_with_nothing_frozen rl mt) S lib s) as [K1 K2].
  split; [exact K1 |]. intros v Hv. rewrite Hv in K2. exact K2.
Qed.

(** ** What the instances are configured with *)

Lemma notebook_with_settings_agree
    (freeze_list remove_list : list Z) (map_type : string) :
  every_run (notebook_with freeze_list remove_list map_type) settings_agree.
Proof.
  unfold_cells.
  destruct (String.eqb_spec map_type "parity") as [-> | Hne];
    run_notebook_with; unfold settings_agree;
    (split; [unfold incl; intros ? Hx; cbn in Hx |- *; tauto |]);
    try exact I; cbn; eexists; split; reflexivity.
Qed.

(** X11: whatever step 2 starts from, the UCCSD variational form is
    configured with the HartreeFock state that was configured before it
    and with the same [num_orbitals], [qubit_mapping],
    [two_qubit_reduction] and [num_particles] as that state; in a run that
    comes to its end these are the final [num_spin_orbitals], [map_type],
    [qubit_reduction] and [num_particles]. *)
Theorem variational_form_agrees_with_initial_state :
  forall (freeze_list0 remove_list0 : list Z) (map_type0 : string)
         (S : Type) (lib : library S) (s : S),
    incl
      (flat_map uccsd_settings
         (log (exec lib
                 (notebook_with freeze_list0 remove_list0 map_type0) s)))
      (flat_map hartree_fock_settings
         (log (exec lib
                 (notebook_with freeze_list0 remove_list0 map_type0) s)))
    /\ forall v : final_vars,
         result
           (exec lib (notebook_with freeze_list0 remove_list0 map_type0) s)
         = inr v ->
         exists st : obj,
           flat_map hartree_fock_settings
             (log (exec lib
                     (notebook_with freeze_list0 remove_list0 map_type0) s))
           = [(st, num_spin_orbitals (prepared v), map_type (prepared v),
               qubit_reduction (prepared v), num_particles (prepared v))]
           /\ flat_map uccsd_settings
                (log (exec lib
                        (notebook_with freeze_list0 remove_list0 map_type0)
                        s))
              = flat_map hartree_fock_settings
                  (log (exec lib
                          (notebook_with freeze_list0 remove_list0
                             map_type0) s)).
Proof.
  intros fl rl mt S lib s.
  pose proof (every_run_exec _ _
                (notebook_with_settings_agree fl rl mt) S lib s) as [K1 K2].
  split; [exact K1 |]. intros v Hv. rewrite Hv in K2. exact K2.
Qed.

Lemma notebook_with_uses_chopped_operator
    (freeze_list remove_list : list Z) (map_type : string) :
  every_run (notebook_with freeze_list remove_list map_type)
    uses_chopped_operator.
Proof.
  unfold_cells.
  destruct (String.eqb_spec map_type "parity") as [-> | Hne];
    run_notebook_with; unfold uses_chopped_operator;
    (split; [unfold incl; intros ? Hx; cbn in Hx |- *; tauto |]);
    try exact I; reflexivity.
Qed.

(** X12: whatever step 2 starts from, every operator that is handed to an
    eigensolver or asked for [num_qubits] is one that [chop] was called on
    and returned from; in a run that comes to its end exactly one operator
    was chopped, the final [qubitOp]. *)
Theorem algorithms_get_chopped_operator :
  forall (freeze_list0 remove_list0 : list Z) (map_type0 : string)
         (S : Type) (lib : library S) (s : S),
    incl
      (flat_map operator_used
         (log (exec lib
                 (notebook_with freeze_list0 remove_list0 map_type0) s)))
      (flat_map operator_chopped
         (log (exec lib
                 (notebook_with freeze_list0 remove_list0 map_type0) s)))
    /\ forall v : final_vars,
         result
           (exec lib (notebook_with freeze_list0 remove_list0 map_type0) s)
         = inr v ->
         flat_map operator_chopped
           (log (exec lib
                   (notebook_with freeze_list0 remove_list0 map_type0) s))
         = [qubitOp (prepared v)].
Proof.
  intros fl rl mt S lib s.
  pose proof (every_run_exec _ _
                (notebook_with_uses_chopped_operator fl rl mt) S lib s)
    as [K1 K2].
  split; [exact K1 |]. intros v Hv. rewrite Hv in K2. exact K2.
Qed.

(** ** Reporting from a dictionary *)

Lemma report_results_reports_or_raises (v : vars) (d : result_dict) :
  every_run (report_results v d) (reports_or_raises d).
Proof.
  unfold report_results.
  repeat run_step; unfold reports_or_raises, eigval0;
    repeat match goal with
      | H : getitem _ _ = _ |- _ => rewrite H
      | H : first _ = _ |- _ => rewrite H
      end;
    cbn;
    try match goal with
        | |- match getitem ?k ?d with _ => _ end =>
            destruct (getitem k d) eqn:?
        end;
    try (split; reflexivity);
    (split; [eexists; reflexivity |]); intros F;
    first [ cbn in F; decompose [and] F; discriminate
          | own_errors; split; reflexivity ].
Qed.

(** X13: reporting the VQE results from a dictionary prints nothing and
    raises [KeyError('eigvals')] or [IndexError] when the dictionary has
    no 'eigvals' or an empty one; when it has an eigenvalue but no
    'opt_params', the two energy lines are printed before
    [KeyError('opt_params')] is raised; otherwise three lines are
    printed. *)
Theorem report_results_behaviour :
  forall (v : vars) (d : result_dict)
         (S : Type) (lib : library S) (s : S),
    match eigval0 d with
    | inl e =>
        log (exec lib (report_results v d) s) = []
        /\ result (exec lib (report_results v d) s) = inl e
        /\ (e = KeyError "eigvals" \/ e = IndexError)
    | inr _ =>
        match getitem "opt_params" d with
        | inl _ =>
            initial_part (names (log (exec lib (report_results v d) s)))
              ["print"; "print"]
            /\ (no_call_failed (log (exec lib (report_results v d) s)) ->
                names (log (exec lib (report_results v d) s))
                = ["print"; "print"]
                /\ result (exec lib (report_results v d) s)
                   = inl (KeyError "opt_params"))
        | inr _ =>
            initial_part (names (log (exec lib (report_results v d) s)))
              ["print"; "print"; "print"]
            /\ (no_call_failed (log (exec lib (report_results v d) s)) ->
                names (log (exec lib (report_results v d) s))
                = ["print"; "print"; "print"]
                /\ result (exec lib (report_results v d) s) = inr tt)
        end
    end.
Proof.
  intros v d S lib s.
  pose proof (every_run_exec _ _
                (report_results_reports_or_raises v d) S lib s) as K.
  unfold reports_or_raises in K.
  destruct (eigval0 d) as [e | x] eqn:E; [| exact K].
  destruct K as [K1 K2]. repeat split; try assumption.
  unfold eigval0 in E.
  destruct (getitem "eigvals" d) as [e' | a] eqn:G.
  - injection E as <-. left. apply (getitem_error _ _ _ G).
  - right. apply (first_error _ _ E).
Qed.

(** ** The counters that are printed *)

Lemma notebook_with_counters_printed_before
    (freeze_list remove_list : list Z) (map_type : string) :
  every_run (notebook_with freeze_list remove_list map_type)
    counters_printed_before.
Proof.
  unfold_cells.
  destruct (String.eqb_spec map_type "parity") as [-> | Hne];
    run_notebook_with; unfold counters_printed_before; try exact I;
    match goal with
    | H : index_conversion _ _ _ = inr _ |- _ =>
        apply index_conversion_lengths in H; destruct H as [[_ Hf] [_ Hr]]
    end;
    try rewrite (Hf eq_refl); try rewrite (Hr eq_refl);
    cbn; split; do 2 f_equal; unfold len; cbn; lia.
Qed.

(** X14: whatever step 2 starts from, the two counters that step 2 prints
    are the ones before freezing and elimination: in a run that comes to
    its end the "# of electrons" printed is the final [num_particles] plus
    [len(freeze_list)], and the "# of spin orbitals" printed is the final
    [num_spin_orbitals] plus [len(freeze_list)] plus
    [len(remove_list)]. *)
Theorem printed_counters_precede_reduction :
  forall (freeze_list0 remove_list0 : list Z) (map_type0 : string)
         (S : Type) (lib : library S) (s : S) (v : final_vars),
    result (exec lib (notebook_with freeze_list0 remove_list0 map_type0) s)
    = inr v ->
    printed "# of electrons: {}"
      (log (exec lib (notebook_with freeze_list0 remove_list0 map_type0) s))
    = [PInt (num_particles (prepared v) + len (freeze_list (prepared v)))]
    /\ printed "# of spin orbitals: {}"
         (log (exec lib
                 (notebook_with freeze_list0 remove_list0 map_type0) s))
       = [PInt (num_spin_orbitals (prepared v)
                + len (freeze_list (prepared v))
                + len (remove_list (prepared v)))].
Proof.
  intros fl rl mt S lib s v Hv.
  pose proof (every_run_exec _ _
                (notebook_with_counters_printed_before fl rl mt) S lib s)
    as K.
  rewrite Hv in K. exact K.
Qed.

Lemma printed_counters_precede_reduction_witness :
  printed "# of electrons: {}"
    (log (exec (demo_library 0%float) notebook 0%nat))
  = [PInt (2 + len [0; 6])].
Proof.
  exact (proj1 (printed_counters_precede_reduction [0] [-3; -2] "parity"
                  nat (demo_library 0%float) 0%nat
                  {| prepared :=
                       {| molecule := LiH;
                          freeze_list := [0; 6];
                          remove_list := [2; 3; 7; 8];
                          map_type := "parity";
                          nuclear_repulsion_energy :=
                            _nuclear_repulsion_energy LiH;
                          num_particles := 2;
                          num_spin_orbitals := 6;
                          energy_shift := 0%float;
                          qubit_reduction := true;
                          qubitOp := Obj 6 |};
                     ret := demo_results;
                     results := demo_results |}
                  eq_refl)).
Defined.

(** ** The two totals compared *)

Lemma real_total_energy (energy_shift nuclear_repulsion_energy : float)
    (e : num) :
  real (total_energy energy_shift nuclear_repulsion_energy e)
  = (real e + energy_shift + nuclear_repulsion_energy)%float.
Proof. destruct e; reflexivity. Qed.

(** X15: in a run that comes to its end, when the eigenvalue VQE returned
    has the same real part as the one the exact eigensolver returned, the
    total printed after VQE has as its real part the total printed after
    the exact eigensolver, whether VQE's eigenvalue is a real or a complex
    number. *)
Theorem totals_agree_on_equal_eigenvalues :
  forall (S : Type) (lib : library S) (s : S) (v : final_vars)
         (e_exact e_vqe : num),
    result (exec lib notebook s) = inr v ->
    eigval0 (ret v) = inr e_exact ->
    eigval0 (results v) = inr e_vqe ->
    real e_vqe = real e_exact ->
    exists (t_exact : float) (t_vqe : num),
      printed "The total ground state energy is: {:.12f}"
        (log (exec lib notebook s))
      = [PNum (Real t_exact); PNum t_vqe]
      /\ real t_vqe = t_exact.
Proof.
  intros S lib s v e1 e2 Hv H1 H2 Hr.
  pose proof (every_run_exec _ _ notebook_totals_reported S lib s) as K.
  rewrite Hv in K. unfold totals_reported in K.
  destruct K as (x1 & x2 & K1 & K2 & K3 & _).
  rewrite H1 in K1. injection K1 as <-.
  rewrite H2 in K2. injection K2 as <-.
  eexists. eexists. split; [exact K3 |].
  change (num_add (num_add e2 (energy_shift (prepared v)))
            (nuclear_repulsion_energy (prepared v)))
    with (total_energy (energy_shift (prepared v))
            (nuclear_repulsion_energy (prepared v)) e2).
  rewrite real_total_energy, Hr. reflexivity.
Qed.

Lemma totals_agree_on_equal_eigenvalues_witness :
  exists (t_exact : float) (t_vqe : num),
    printed "The total ground state energy is: {:.12f}"
      (log (exec (demo_library 0%float) notebook 0%nat))
    = [PNum (Real t_exact); PNum t_vqe]
    /\ real t_vqe = t_exact.
Proof.
  exact (totals_agree_on_equal_eigenvalues nat (demo_library 0%float) 0%nat
           _ (Cplx (-1.077059745735)%float 0%float)
           (Cplx (-1.077059745735)%float 0%float)
           eq_refl eq_refl eq_refl eq_refl).
Defined.
